(** * travel_concierge: the host agent and its message relay

    A shallow embedding of [travel_concierge/agent.py] and
    [travel_concierge/__main__.py].  Python objects that the code mutates
    (the host agent, the session state, the console) live in a store that
    is threaded through a small state-and-exception monad; everything the
    code obtains from a library (the network, uuid, the clock, pydantic
    validation, [repr], [pformat]) is a member of the [Externals] class,
    so every theorem holds for every behaviour of those collaborators. *)

From Stdlib Require Import String Ascii List ZArith NArith Bool Lia.
From Stdlib Require Import DecimalString.
Import ListNotations.
Open Scope list_scope.
Open Scope string_scope.


Set Warnings "-register-all".

(** ** Python values *)

(** The values held by the session state and by message payloads:
    [None], [bool], [int], [str], [list] and [dict] with [str] keys.  A
    [str] is held as the bytes of its UTF-8 encoding.  Floats are left out. *)
Inductive PyVal : Type :=
| PyNone
| PyBool (b : bool)
| PyInt (z : Z)
| PyStr (s : string)
| PyList (items : list PyVal)
| PyDict (items : list (string * PyVal)).

(** Truth value testing ([if x:], [not x], [x and y]). *)
Definition truthy (v : PyVal) : bool :=
  match v with
  | PyNone => false
  | PyBool b => b
  | PyInt z => negb (Z.eqb z 0)
  | PyStr s => negb (String.eqb s "")
  | PyList l => match l with [] => false | _ => true end
  | PyDict d => match d with [] => false | _ => true end
  end.

(** [type(v).__name__] *)
Definition type_name (v : PyVal) : string :=
  match v with
  | PyNone => "NoneType"
  | PyBool _ => "bool"
  | PyInt _ => "int"
  | PyStr _ => "str"
  | PyList _ => "list"
  | PyDict _ => "dict"
  end.

(** [isinstance(v, dict)] *)
Definition isinstance_dict (v : PyVal) : option (list (string * PyVal)) :=
  match v with PyDict d => Some d | _ => None end.

(** ** Insertion-ordered dictionaries with [str] keys

    A Python [dict] keeps its keys in insertion order; assigning to a key
    that is already present keeps the key where it is and replaces the
    value. *)
Module Dict.

Definition t (V : Type) := list (string * V).

Definition empty {V} : t V := [].

Fixpoint get {V} (k : string) (d : t V) : option V :=
  match d with
  | [] => None
  | (k', v) :: rest => if String.eqb k k' then Some v else get k rest
  end.

(** [k in d] *)
Definition contains {V} (k : string) (d : t V) : bool :=
  match get k d with Some _ => true | None => false end.

(** [d[k] = v] *)
Fixpoint set {V} (k : string) (v : V) (d : t V) : t V :=
  match d with
  | [] => [(k, v)]
  | (k', v') :: rest =>
      if String.eqb k k' then (k, v) :: rest else (k', v') :: set k v rest
  end.

Definition keys {V} (d : t V) : list string := map fst d.

Definition values {V} (d : t V) : list V := map snd d.

(** [d.get(k, default)] *)
Definition get_default {V} (k : string) (default : V) (d : t V) : V :=
  match get k d with Some v => v | None => default end.

End Dict.

(** ** Exceptions

    Instances of [Exception], by the class a handler can test.  Signals
    that do not derive from [Exception] (keyboard interrupt, task
    cancellation) are outside the model. *)
Inductive ExcClass : Type :=
| ValueError
| TypeError
| KeyError
| ConnectError                       (* httpx.ConnectError *)
| OtherException (qualname : string). (* any other subclass of Exception *)

Record PyExc : Type := mkExc {
  exc_class : ExcClass;
  exc_str : string        (* str(e) *)
}.

(** The classes named by the [except] clauses of the program. *)
Inductive Handled : Type := H_ConnectError | H_Exception.

Definition isinstance_exc (e : PyExc) (h : Handled) : bool :=
  match h with
  | H_Exception => true
  | H_ConnectError =>
      match exc_class e with ConnectError => true | _ => false end
  end.

(** [f"{type(e)}"] *)
Definition type_repr (e : PyExc) : string :=
  "<class '" ++
  match exc_class e with
  | ValueError => "ValueError"
  | TypeError => "TypeError"
  | KeyError => "KeyError"
  | ConnectError => "httpx.ConnectError"
  | OtherException q => q
  end ++ "'>".

Inductive Result (A : Type) : Type :=
| Ok (a : A)
| Raise (e : PyExc).
Arguments Ok {A} a.
Arguments Raise {A} e.

(** ** Text helpers *)

(** [sep.join(xs)] *)
Fixpoint join (sep : string) (xs : list string) : string :=
  match xs with
  | [] => ""
  | [x] => x
  | x :: rest => x ++ sep ++ join sep rest
  end.

(** [str(n)] for an [int]. *)
Definition str_int (z : Z) : string := NilZero.string_of_int (Z.to_int z).

Definition hex_digit (n : N) : ascii :=
  match n with
  | 0%N => "0" | 1%N => "1" | 2%N => "2" | 3%N => "3" | 4%N => "4"
  | 5%N => "5" | 6%N => "6" | 7%N => "7" | 8%N => "8" | 9%N => "9"
  | 10%N => "a" | 11%N => "b" | 12%N => "c" | 13%N => "d" | 14%N => "e"
  | _ => "f"
  end%char.

(** ['%0<digits>x' % n], keeping the low [digits] hexadecimal digits. *)
Fixpoint hex_pad (digits : nat) (n : N) : string :=
  match digits with
  | O => ""
  | S d => hex_pad d (N.shiftr n 4) ++ String (hex_digit (N.land n 15)) ""
  end.

(** ** uuid

    A UUID is its 128-bit integer; [uuid4()] draws it from the world. *)
Definition uuid_hex (u : N) : string := hex_pad 32 u.

(** [str(uuid)]: the 8-4-4-4-12 form. *)
Definition uuid_str (u : N) : string :=
  let h := uuid_hex u in
  substring 0 8 h ++ "-" ++ substring 8 4 h ++ "-" ++ substring 12 4 h
  ++ "-" ++ substring 16 4 h ++ "-" ++ substring 20 12 h.

(** ** json.dumps

    [json.dumps] with its default [ensure_ascii=True]: a character outside
    the printable ASCII range is written as a [\u] escape of its code
    point, so the UTF-8 bytes of a [str] are decoded first. *)
Definition cont_bits (c : ascii) : N := N.land (N_of_ascii c) 63.

Fixpoint code_points (s : string) : list N :=
  match s with
  | EmptyString => []
  | String c rest =>
      let b := N_of_ascii c in
      if (b <? 192)%N then b :: code_points rest
      else if (b <? 224)%N then
        match rest with
        | String c1 rest1 =>
            (N.shiftl (N.land b 31) 6 + cont_bits c1)%N :: code_points rest1
        | _ => b :: code_points rest
        end
      else if (b <? 240)%N then
        match rest with
        | String c1 (String c2 rest2) =>
            (N.shiftl (N.land b 15) 12 + N.shiftl (cont_bits c1) 6
             + cont_bits c2)%N :: code_points rest2
        | _ => b :: code_points rest
        end
      else
        match rest with
        | String c1 (String c2 (String c3 rest3)) =>
            (N.shiftl (N.land b 7) 18 + N.shiftl (cont_bits c1) 12
             + N.shiftl (cont_bits c2) 6 + cont_bits c3)%N
            :: code_points rest3
        | _ => b :: code_points rest
        end
  end.

Definition backslash : string := String (ascii_of_N 92) "".
Definition dquote : string := String (ascii_of_N 34) "".
Definition newline : string := String (ascii_of_N 10) "".

Definition u_escape (n : N) : string := backslash ++ "u" ++ hex_pad 4 n.

(** The replacement of one character in [py_encode_basestring_ascii]. *)
Definition json_escape_char (n : N) : string :=
  match n with
  | 34%N => backslash ++ dquote
  | 92%N => backslash ++ backslash
  | 8%N => backslash ++ "b"
  | 12%N => backslash ++ "f"
  | 10%N => backslash ++ "n"
  | 13%N => backslash ++ "r"
  | 9%N => backslash ++ "t"
  | _ =>
      if ((32 <=? n) && (n <=? 126))%N then String (ascii_of_N n) ""
      else if (n <? 65536)%N then u_escape n
      else
        let m := (n - 65536)%N in
        u_escape (N.lor 55296 (N.land (N.shiftr m 10) 1023))
        ++ u_escape (N.lor 56320 (N.land m 1023))
  end.

Definition json_string (s : string) : string :=
  dquote ++ String.concat "" (map json_escape_char (code_points s)) ++ dquote.

(** ["\n" + " " * (indent * level)] *)
Fixpoint spaces (n : nat) : string :=
  match n with O => "" | S k => " " ++ spaces k end.

(** [json.dumps(v)] when [indent] is [None], [json.dumps(v, indent=k)] when
    it is [Some k]; [level] is the nesting depth of [v]. *)
Fixpoint json_encode (indent : option nat) (level : nat) (v : PyVal) : string :=
  let item_sep :=
    match indent with
    | None => ", "
    | Some k => "," ++ newline ++ spaces (k * S level)
    end in
  let opening :=
    match indent with
    | None => ""
    | Some k => newline ++ spaces (k * S level)
    end in
  let closing :=
    match indent with
    | None => ""
    | Some k => newline ++ spaces (k * level)
    end in
  match v with
  | PyNone => "null"
  | PyBool true => "true"
  | PyBool false => "false"
  | PyInt z => str_int z
  | PyStr s => json_string s
  | PyList [] => "[]"
  | PyList items =>
      "[" ++ opening
      ++ join item_sep (map (json_encode indent (S level)) items)
      ++ closing ++ "]"
  | PyDict [] => "{}"
  | PyDict items =>
      "{" ++ opening
      ++ join item_sep
           (map (fun kv => json_string (fst kv) ++ ": "
                           ++ json_encode indent (S level) (snd kv)) items)
      ++ closing ++ "}"
  end.

Definition json_dumps (v : PyVal) : string := json_encode None 0 v.
Definition json_dumps_indent (k : nat) (v : PyVal) : string :=
  json_encode (Some k) 0 v.

(** ** Library types the program handles *)

(** [a2a.types.AgentCard]: the fields the program reads. *)
Module AgentCard.
Record t : Type := mk { name : string; description : string; url : string }.
End AgentCard.

Module RemoteAgentConnections.

(** Modelled from the spec: the class [RemoteAgentConnections] of
    [travel_concierge/remote_agent_connection.py], which is not part of the
    sources at hand.  The spec describes the bootstrap as "resolve card,
    construct client, store in a mapping": the client is an object built
    from the card and the address. *)
Record t : Type := mk { card : AgentCard.t; agent_url : string }.

(** Modelled from the spec: the truth value of a client.  A plain object,
    which the spec gives no length and no truth value of its own, is
    truthy. *)
Definition truth (c : t) : bool := true.

End RemoteAgentConnections.

(** [google.genai.types]: parts of a content, with the fields read here. *)
Record FunctionCall : Type := {
  fc_id : option string;
  fc_args : option (list (string * PyVal));
  fc_name : option string
}.

Record FunctionResponse : Type := {
  fr_id : option string;
  fr_name : option string;
  fr_response : PyVal
}.

Record Part : Type := {
  function_call : option FunctionCall;
  function_response : option FunctionResponse;
  text : option string
}.

Record Content : Type := {
  role : option string;
  parts : option (list Part)
}.

(** [google.adk.events.Event].  [is_final_response] holds the answer of the
    method of that name, which the framework computes from the event. *)
Record EventActions : Type := { escalate : option bool }.

Record Event : Type := {
  content : option Content;
  actions : option EventActions;
  error_message : option string;
  is_final_response : bool
}.

(** What an asynchronous iterator of events delivers: the events, then
    either exhaustion or an exception. *)
Record EventStream : Type := {
  events : list Event;
  stream_end : option PyExc
}.

(** [google.adk.Agent], as [create_agent] configures it. *)
Inductive Callable : Type :=
| bound_root_instruction
| bound_send_message
| _load_precreated_itinerary.

Record Agent : Type := {
  agent_model : string;
  agent_name : string;
  agent_description : string;
  agent_instruction : Callable;
  agent_before_agent_callback : Callable;
  agent_tools : list Callable
}.

(** [a2a.types.SendMessageResponse]: a root model over a success response,
    whose result is a task or a message, and a JSON-RPC error response. *)
Inductive SendMessageResult (Task Message : Type) : Type :=
| ResultTask (t : Task)
| ResultMessage (m : Message).
Arguments ResultTask {Task Message} t.
Arguments ResultMessage {Task Message} m.

Inductive SendMessageRoot (Task Message Err : Type) : Type :=
| SendMessageSuccessResponse (result : SendMessageResult Task Message)
| JSONRPCErrorResponse (error : Err).
Arguments SendMessageSuccessResponse {Task Message Err} result.
Arguments JSONRPCErrorResponse {Task Message Err} error.

Record SendMessageResponse (Task Message Err : Type) : Type := {
  root : SendMessageRoot Task Message Err
}.
Arguments root {Task Message Err} _.

(** What the program writes to the terminal. *)
Inductive Output : Type :=
| Stdout (line : string)      (* print(...) *)
| Traceback (e : PyExc).      (* traceback.print_exc() *)

(** ** The collaborators

    Everything the program calls but does not define.  Calls that reach
    outside the process take the [World] and return the next one. *)
Class Externals : Type := {
  World : Type;
  TaskUpdateCallback : Type;
  Task : Type;
  Message : Type;
  JSONRPCError : Type;
  MessageSendParams : Type;
  SendMessageRequest : Type;
  (* built-in [repr], for lists and dictionaries *)
  repr : PyVal -> string;
  (* pprint.pformat(v, indent=2, width=80) *)
  pformat : PyVal -> string;
  (* uuid.uuid4() *)
  uuid4 : World -> N * World;
  (* datetime.now().strftime("%Y-%m-%d %H:%M:%S") *)
  now_strftime : World -> string * World;
  (* A2ACardResolver(client, address).get_agent_card() *)
  get_agent_card : string -> World -> Result AgentCard.t * World;
  (* MessageSendParams.model_validate(payload) *)
  model_validate : PyVal -> Result MessageSendParams;
  (* SendMessageRequest(id=..., params=...) *)
  new_SendMessageRequest :
    PyVal -> MessageSendParams -> Result SendMessageRequest;
  (* client.send_message(message_request=...) *)
  client_send_message :
    RemoteAgentConnections.t -> SendMessageRequest -> World ->
    Result (SendMessageResponse Task Message JSONRPCError) * World;
  (* send_response.model_dump_json(exclude_none=True, indent=2) *)
  model_dump_json : SendMessageResponse Task Message JSONRPCError -> string;
  (* part.function_call.model_dump(exclude_none=True) *)
  model_dump : FunctionCall -> PyVal;
  (* ROUTING_AGENT_RUNNER.run_async(user_id=, session_id=, new_message=) *)
  run_async : string -> string -> Content -> World -> EventStream * World
}.

(** ** The text of the root instruction

    The literal text of the f-string of [root_instruction], cut at its four
    placeholders. *)
Definition instruction_role : string :=
"
**Role:** You are an expert Travel Concierge. Your primary function is to help users plan and manage their travel, routing requests to specialized remote agents when available.

**Core Responsibilities:**

1. **Travel Planning:** Help users discover destinations, plan itineraries, find flights/hotels, and manage bookings.

2. **Trip Phase Detection:** Determine the current trip phase using the context below:
   - **Pre-Booking Phase** (no trip dates): Help with inspiration and planning
   - **Pre-Trip Phase** (before start_date): Assist with preparation tasks
   - **In-Trip Phase** (during the trip dates): Provide real-time support
   - **Post-Trip Phase** (after end_date): Collect feedback and preferences

3. **Context-Aware Assistance:** Use relevant contextual information (user preferences, trip details, conversation history) to provide personalized recommendations.

4. **Task Delegation:** When remote agents are available, delegate specialized tasks to appropriate agents via A2A protocol.

**Available Remote A2A Agents:**

".

Definition instruction_context : string :=
"

**Current Context:**
Current Time: ".

Definition instruction_profile : string :=
"

User Profile:
".

Definition instruction_trip : string :=
"

Trip Information:
".

Definition instruction_rules : string :=
"

**Decision Logic:**

- For travel inspiration, destination suggestions, or activity recommendations → Use **inspiration_agent** if available
- For flight/hotel searches, seat/room selections, or itinerary building → Use **planning_agent** if available
- For reservations, payment processing, or booking confirmations → Use **booking_agent** if available
- For pre-trip preparation (visas, weather, packing) → Use **pre_trip_agent** if available
- For real-time travel support or daily itineraries → Use **in_trip_agent** if available
- For post-trip feedback or preference extraction → Use **post_trip_agent** if available

**Key Directives:**

✓ Provide helpful travel planning advice to users
✓ Route tasks to remote agents when available based on trip phase and user intent
✓ Provide minimal but complete context to remote agents
✓ Transparently relay all remote agent responses to the user
✓ Use the send_message tool to communicate with remote agents via A2A
✓ Handle long-running operations gracefully (agents may take time to respond)
✓ Focus on the most recent user interactions when making decisions
".


Section WithExternals.

Context {ext : Externals}.

(** ** The objects the program mutates *)

Record TravelHostAgent : Type := {
  task_callback : option TaskUpdateCallback;
  remote_agent_connections : Dict.t RemoteAgentConnections.t;
  cards : Dict.t AgentCard.t;
  agents : string;
  agent : option Agent
}.

(** [self] is the host agent, [state] the session state that a
    [ReadonlyContext], a [CallbackContext] and a [ToolContext] give access
    to, [yielded] what a generator has produced so far. *)
Record Store : Type := {
  self : TravelHostAgent;
  state : Dict.t PyVal;
  console : list Output;
  yielded : list PyVal;
  world : World
}.

(** ** The monad: a store and exceptions *)

Definition M (A : Type) : Type := Store -> Result A * Store.

Definition ret {A} (a : A) : M A := fun s => (Ok a, s).

Definition bind {A B} (m : M A) (k : A -> M B) : M B :=
  fun s =>
    match m s with
    | (Ok a, s') => k a s'
    | (Raise e, s') => (Raise e, s')
    end.

Definition raise {A} (e : PyExc) : M A := fun s => (Raise e, s).

(** [try: body / except C1 as e: h1 / except C2 as e: h2 ...]: the first
    clause whose class the exception is an instance of runs; with none,
    the exception goes on. *)
Definition try_except {A} (body : M A)
    (handlers : list (Handled * (PyExc -> M A))) : M A :=
  fun s =>
    match body s with
    | (Ok a, s') => (Ok a, s')
    | (Raise e, s') =>
        match find (fun h => isinstance_exc e (fst h)) handlers with
        | Some (_, h) => h e s'
        | None => (Raise e, s')
        end
    end.

Notation "x <- c1 ;; c2" := (bind c1 (fun x => c2))
  (at level 61, c1 at next level, right associativity).
Notation "c1 ;; c2" := (bind c1 (fun _ => c2))
  (at level 61, right associativity).

Definition get_self : M TravelHostAgent := fun s => (Ok (self s), s).

Definition put_self (a : TravelHostAgent) : M unit :=
  fun s =>
    (Ok tt, {| self := a; state := state s; console := console s;
               yielded := yielded s; world := world s |}).

Definition get_state : M (Dict.t PyVal) := fun s => (Ok (state s), s).

(** [state[k] = v] *)
Definition state_setitem (k : string) (v : PyVal) : M unit :=
  fun s =>
    (Ok tt, {| self := self s; state := Dict.set k v (state s);
               console := console s; yielded := yielded s;
               world := world s |}).

Definition emit (o : Output) : M unit :=
  fun s =>
    (Ok tt, {| self := self s; state := state s;
               console := (console s ++ [o])%list; yielded := yielded s;
               world := world s |}).

Definition print (line : string) : M unit := emit (Stdout line).

(** [yield v] *)
Definition yield (v : PyVal) : M unit :=
  fun s =>
    (Ok tt, {| self := self s; state := state s; console := console s;
               yielded := (yielded s ++ [v])%list; world := world s |}).

(** A call that reaches outside the process and returns. *)
Definition call {A} (f : World -> A * World) : M A :=
  fun s =>
    let (a, w) := f (world s) in
    (Ok a, {| self := self s; state := state s; console := console s;
              yielded := yielded s; world := w |}).

(** A call that reaches outside the process and may raise. *)
Definition call_raising {A} (f : World -> Result A * World) : M A :=
  fun s =>
    let (r, w) := f (world s) in
    (r, {| self := self s; state := state s; console := console s;
           yielded := yielded s; world := w |}).

(** A library call inside the process that may raise. *)
Definition lift {A} (r : Result A) : M A := fun s => (r, s).

(** [d[k]], which raises [KeyError] on a missing key. *)
Definition getitem {V} (k : string) (d : Dict.t V) : M V :=
  match Dict.get k d with
  | Some v => ret v
  | None => raise (mkExc KeyError ("'" ++ k ++ "'"))
  end.

(** [for x in xs: body(x)] *)
Fixpoint for_each {A} (xs : list A) (body : A -> M unit) : M unit :=
  match xs with
  | [] => ret tt
  | x :: rest => body x ;; for_each rest body
  end.

(** [str(uuid.uuid4())] *)
Definition fresh_uuid_str : M string :=
  u <- call uuid4 ;; ret (uuid_str u).

(** [str(v)], as an f-string placeholder formats a value. *)
Definition py_str (v : PyVal) : string :=
  match v with
  | PyStr s => s
  | PyNone => "None"
  | PyBool true => "True"
  | PyBool false => "False"
  | PyInt z => str_int z
  | PyList _ | PyDict _ => repr v
  end.

(** [f"{x}"] for an optional [str] attribute. *)
Definition fmt_opt (o : option string) : string :=
  match o with Some s => s | None => "None" end.

(** ** travel_concierge/agent.py

    Each definition below is the function of the same name; where a
    function is cut in pieces, the pieces are named after what they do and
    say which lines they are. *)

(** [payload[k1][k2] = v] *)
Definition setitem_in (k1 k2 : string) (v : PyVal) (payload : Dict.t PyVal)
  : Dict.t PyVal :=
  match Dict.get k1 payload with
  | Some (PyDict inner) => Dict.set k1 (PyDict (Dict.set k2 v inner)) payload
  | _ => payload
  end.

(** An argument annotated [str | None]. *)
Definition opt_val (o : option string) : PyVal :=
  match o with Some t => PyStr t | None => PyNone end.

(** Lines 52-69.  [text] is a [str]; [task_id] and [context_id] are a
    [str] or [None]. *)
Definition create_send_message_payload
    (text : string) (task_id context_id : option string)
  : M (Dict.t PyVal) :=
  u <- call uuid4 ;;
  let payload : Dict.t PyVal :=
    [("message",
      PyDict [("role", PyStr "user");
              ("parts",
               PyList [PyDict [("type", PyStr "text"); ("text", PyStr text)]]);
              ("messageId", PyStr (uuid_hex u))])] in
  let payload :=
    if truthy (opt_val task_id)
    then setitem_in "message" "taskId" (opt_val task_id) payload
    else payload in
  let payload :=
    if truthy (opt_val context_id)
    then setitem_in "message" "contextId" (opt_val context_id) payload
    else payload in
  ret payload.

(** Lines 84-92. *)
Definition __init__ (task_callback : option TaskUpdateCallback)
  : TravelHostAgent :=
  {| task_callback := task_callback;
     remote_agent_connections := Dict.empty;
     cards := Dict.empty;
     agents := "";
     agent := None |}.

Definition set_connection (k : string) (c : RemoteAgentConnections.t)
    (a : TravelHostAgent) : TravelHostAgent :=
  {| task_callback := task_callback a;
     remote_agent_connections := Dict.set k c (remote_agent_connections a);
     cards := cards a;
     agents := agents a;
     agent := agent a |}.

Definition set_card (k : string) (c : AgentCard.t) (a : TravelHostAgent)
  : TravelHostAgent :=
  {| task_callback := task_callback a;
     remote_agent_connections := remote_agent_connections a;
     cards := Dict.set k c (cards a);
     agents := agents a;
     agent := agent a |}.

Definition set_agents (text : string) (a : TravelHostAgent)
  : TravelHostAgent :=
  {| task_callback := task_callback a;
     remote_agent_connections := remote_agent_connections a;
     cards := cards a;
     agents := text;
     agent := agent a |}.

(** Lines 99-109: the body of the loop of [_async_init_components], for
    one address.  The two assignments come after the resolution and the
    construction of the client, inside the [try]. *)
Definition resolve_address (address : string) : M unit :=
  try_except
    (card <- call_raising (get_agent_card address) ;;
     let remote_conn := RemoteAgentConnections.mk card address in
     a <- get_self ;;
     put_self (set_connection (AgentCard.name card) remote_conn a) ;;
     a <- get_self ;;
     put_self (set_card (AgentCard.name card) card a))
    [(H_ConnectError,
      fun e => print ("ERROR: Failed to get agent card from " ++ address
                      ++ ": " ++ exc_str e));
     (H_Exception,
      fun e => print ("ERROR: Failed to initialize connection for "
                      ++ address ++ ": " ++ exc_str e))].

(** Line 113: one entry of [agent_info]. *)
Definition card_info (card : AgentCard.t) : string :=
  json_dumps (PyDict [("name", PyStr (AgentCard.name card));
                      ("description", PyStr (AgentCard.description card))]).

(** Lines 111-117: the end of [_async_init_components], [self.agents]
    from [self.cards]. *)
Definition populate_agents : M unit :=
  a <- get_self ;;
  let agent_info := map card_info (Dict.values (cards a)) in
  print ("agent_info: " ++ repr (PyList (map PyStr agent_info))) ;;
  a <- get_self ;;
  put_self
    (set_agents
       (match agent_info with
        | [] => "No agents found"
        | _ => join newline agent_info
        end) a).

(** Lines 94-117.  The HTTP client that the loop shares has no effect of
    its own. *)
Definition _async_init_components (remote_agent_addresses : list string)
  : M unit :=
  for_each remote_agent_addresses resolve_address ;;
  populate_agents.

(** Lines 119-128.  The class method: a new instance takes the place of
    [self]. *)
Definition create (remote_agent_addresses : list string)
    (task_callback : option TaskUpdateCallback) : M TravelHostAgent :=
  put_self (__init__ task_callback) ;;
  _async_init_components remote_agent_addresses ;;
  get_self.

(** Lines 130-139. *)
Definition create_agent : M Agent :=
  ret {| agent_model := "gemini-2.5-flash";
         agent_name := "root_agent";
         agent_description :=
           "A Travel Conceirge using the services of multiple sub-agents";
         agent_instruction := bound_root_instruction;
         agent_before_agent_callback := _load_precreated_itinerary;
         agent_tools := [bound_send_message] |}.

(** Lines 225-234. *)
Definition check_active_agent : M (Dict.t PyVal) :=
  state <- get_state ;;
  if Dict.contains "session_id" state && Dict.contains "session_active" state
  then
    session_active <- getitem "session_active" state ;;
    if truthy session_active && Dict.contains "active_agent" state
    then
      active_agent <- getitem "active_agent" state ;;
      ret [("active_agent", PyStr (py_str active_agent))]
    else ret [("active_agent", PyStr "None")]
  else ret [("active_agent", PyStr "None")].

(** Lines 167-172: the f-string bound to [trip_info_context]. *)
Definition trip_info
    (trip_destination trip_start trip_end active_agent : PyVal) : string :=
  "
        Destination: " ++ py_str trip_destination ++ "
        Start Date: " ++ py_str trip_start ++ "
        End Date: " ++ py_str trip_end ++ "
        Active Agent: " ++ py_str active_agent ++ "
        ".

(** Lines 141-223. *)
Definition root_instruction : M string :=
  current_agent <- check_active_agent ;;
  state <- get_state ;;
  current_time <- call now_strftime ;;
  let user_profile_context :=
    Dict.get_default "user_profile" (PyStr "No user profile available") state in
  let user_profile_context :=
    match isinstance_dict user_profile_context with
    | Some _ => PyStr (json_dumps_indent 2 user_profile_context)
    | None => user_profile_context
    end in
  let itinerary := Dict.get_default "itinerary" (PyDict []) state in
  let '(trip_start, trip_end, trip_destination) :=
    match isinstance_dict itinerary with
    | Some d =>
        (Dict.get_default "start_date" (PyStr "Not set") d,
         Dict.get_default "end_date" (PyStr "Not set") d,
         Dict.get_default "destination" (PyStr "Not determined") d)
    | None => (PyStr "Not set", PyStr "Not set", PyStr "Not determined")
    end in
  active_agent <- getitem "active_agent" current_agent ;;
  let trip_info_context :=
    trip_info trip_destination trip_start trip_end active_agent in
  a <- get_self ;;
  ret (instruction_role ++ agents a
       ++ instruction_context ++ current_time
       ++ instruction_profile ++ py_str user_profile_context
       ++ instruction_trip ++ trip_info_context
       ++ instruction_rules).

(** Lines 236-241. *)
Definition before_model_callback : M unit :=
  state <- get_state ;;
  session_inactive <-
    (if negb (Dict.contains "session_active" state) then ret true
     else v <- getitem "session_active" state ;; ret (negb (truthy v))) ;;
  if session_inactive : bool then
    (if negb (Dict.contains "session_id" state)
     then u <- fresh_uuid_str ;; state_setitem "session_id" (PyStr u)
     else ret tt) ;;
    state_setitem "session_active" (PyBool true)
  else ret tt.

(** Lines 265-299: the middle of [send_message], the identifiers, the
    payload and the request built from them.  The dictionary [metadata]
    is filled and not read again. *)
Definition build_message_request (task : string) : M SendMessageRequest :=
  state <- get_state ;;
  task_id <-
    (if Dict.contains "task_id" state then getitem "task_id" state
     else u <- fresh_uuid_str ;; ret (PyStr u)) ;;
  context_id <-
    (if Dict.contains "context_id" state then getitem "context_id" state
     else u <- fresh_uuid_str ;; ret (PyStr u)) ;;
  message_id <-
    (if Dict.contains "input_message_metadata" state
     then
       input_message_metadata <- getitem "input_message_metadata" state ;;
       match isinstance_dict input_message_metadata with
       | None =>
           (* the double-star unpacking of a value that is no mapping *)
           raise (mkExc TypeError
                    ("dict.update() argument after ** must be a mapping, not "
                     ++ type_name input_message_metadata))
       | Some metadata =>
           if Dict.contains "message_id" metadata
           then getitem "message_id" metadata
           else ret (PyStr "")
       end
     else ret (PyStr "")) ;;
  message_id <-
    (if negb (truthy message_id)
     then u <- fresh_uuid_str ;; ret (PyStr u)
     else ret message_id) ;;
  let payload : Dict.t PyVal :=
    [("message",
      PyDict [("role", PyStr "user");
              ("parts",
               PyList [PyDict [("type", PyStr "text"); ("text", PyStr task)]]);
              ("messageId", message_id)])] in
  let payload :=
    if truthy task_id then setitem_in "message" "taskId" task_id payload
    else payload in
  let payload :=
    if truthy context_id
    then setitem_in "message" "contextId" context_id payload
    else payload in
  params <- lift (model_validate (PyDict payload)) ;;
  lift (new_SendMessageRequest message_id params).

(** Lines 303-316: the end of [send_message], what is made of the
    response. *)
Definition read_response
    (send_response : SendMessageResponse Task Message JSONRPCError)
  : M (option Task) :=
  print ("send_response " ++ model_dump_json send_response) ;;
  match root send_response with
  | JSONRPCErrorResponse _ =>
      print "received non-success response. Aborting get task " ;;
      ret None
  | SendMessageSuccessResponse (ResultMessage _) =>
      print "received non-task response. Aborting get task " ;;
      ret None
  | SendMessageSuccessResponse (ResultTask t) => ret (Some t)
  end.

(** Lines 243-316. *)
Definition send_message (agent_name task : string) : M (option Task) :=
  a <- get_self ;;
  if negb (Dict.contains agent_name (remote_agent_connections a))
  then raise (mkExc ValueError ("Agent " ++ agent_name ++ " not found"))
  else
    state_setitem "active_agent" (PyStr agent_name) ;;
    client <- getitem agent_name (remote_agent_connections a) ;;
    if negb (RemoteAgentConnections.truth client)
    then raise (mkExc ValueError ("Client not available for " ++ agent_name))
    else
      message_request <- build_message_request task ;;
      send_response <-
        call_raising (client_send_message client message_request) ;;
      read_response send_response.

(** ** travel_concierge/__main__.py

    [get_response_from_agent] is an asynchronous generator: what it yields
    is appended to [yielded]. *)

Definition APP_NAME : string := "routing_app".
Definition USER_ID : string := "default_user".
Definition SESSION_ID : string := "default_session".

(** [{"role": "assistant", "content": text}] *)
Definition assistant_message (text : string) : PyVal :=
  PyDict [("role", PyStr "assistant"); ("content", PyStr text)].

(** The parts of an event when [event.content and event.content.parts]
    holds. *)
Definition content_parts (event : Event) : option (list Part) :=
  match content event with
  | Some c =>
      match parts c with
      | Some (p :: ps) => Some (p :: ps)
      | _ => None
      end
  | None => None
  end.

(** Lines 44-47: the content of the message for a function call. *)
Definition tool_call_content (fc : FunctionCall) : string :=
  let formatted_call :=
    "```python" ++ newline ++ pformat (model_dump fc) ++ newline ++ "```" in
  "🛠️ **Tool Call: " ++ fmt_opt (fc_name fc) ++ "**" ++ newline ++ formatted_call.

(** Lines 50-61: the content of the message for a function response. *)
Definition tool_response_content (fr : FunctionResponse) : string :=
  let response_content := fr_response fr in
  let formatted_response_data :=
    match isinstance_dict response_content with
    | Some d =>
        match Dict.get "response" d with
        | Some v => v
        | None => response_content
        end
    | None => response_content
    end in
  let formatted_response :=
    "```json" ++ newline ++ pformat formatted_response_data ++ newline
    ++ "```" in
  "⚡ **Tool Response from " ++ fmt_opt (fr_name fr) ++ "**" ++ newline
  ++ formatted_response.

(** Lines 43-62: the body of [for part in event.content.parts]. *)
Definition relay_part (part : Part) : M unit :=
  match function_call part with
  | Some fc => yield (assistant_message (tool_call_content fc))
  | None =>
      match function_response part with
      | Some fr => yield (assistant_message (tool_response_content fr))
      | None => ret tt
      end
  end.

(** [p.text for p in parts if p.text] *)
Definition part_texts (ps : list Part) : list string :=
  flat_map (fun p =>
              match text p with
              | Some t => if truthy (PyStr t) then [t] else []
              | None => []
              end) ps.

(** Lines 64-70: the text computed under [if event.is_final_response():]. *)
Definition final_response_text (event : Event) : string :=
  match content_parts event with
  | Some ps => String.concat "" (part_texts ps)
  | None =>
      match actions event with
      | Some acts =>
          match escalate acts with
          | Some true =>
              "Agent escalated: "
              ++ match error_message event with
                 | Some m => if truthy (PyStr m) then m
                             else "No specific message."
                 | None => "No specific message."
                 end
          | _ => ""
          end
      | None => ""
      end
  end.

(** Lines 40-73: [async for event in event_iterator], with its [break]. *)
Fixpoint relay_events (evs : list Event) (ending : option PyExc) : M unit :=
  match evs with
  | [] =>
      match ending with
      | None => ret tt
      | Some e => raise e
      end
  | event :: rest =>
      match content_parts event with
      | Some ps => for_each ps relay_part
      | None => ret tt
      end ;;
      if is_final_response event then
        let final_response_text := final_response_text event in
        if truthy (PyStr final_response_text)
        then yield (assistant_message final_response_text)
        else ret tt
      else relay_events rest ending
  end.

Definition error_notice : string :=
  "An error occurred while processing your request. Please check the server logs for details.".

(** Lines 28-80. *)
Definition get_response_from_agent (message : string) (history : list PyVal)
  : M unit :=
  try_except
    (event_iterator <-
       call (run_async USER_ID SESSION_ID
               {| role := Some "user";
                  parts := Some [{| function_call := None;
                                    function_response := None;
                                    text := Some message |}] |}) ;;
     relay_events (events event_iterator) (stream_end event_iterator))
    [(H_Exception,
      fun e =>
        print ("Error in get_response_from_agent (Type: " ++ type_repr e
               ++ "): " ++ exc_str e) ;;
        emit (Traceback e) ;;
        yield (assistant_message error_notice))].

(** ** The operations of [TravelHostAgent], as a caller can run them *)

Inductive Operation : Type :=
| Call_async_init_components (remote_agent_addresses : list string)
| Call_create (remote_agent_addresses : list string)
              (task_callback : option TaskUpdateCallback)
| Call_create_agent
| Call_root_instruction
| Call_check_active_agent
| Call_before_model_callback
| Call_send_message (agent_name task : string).

(** Running an operation for its effect on the store. *)
Definition run (op : Operation) (s : Store) : Store :=
  match op with
  | Call_async_init_components l => snd (_async_init_components l s)
  | Call_create l cb => snd (create l cb s)
  | Call_create_agent => snd (create_agent s)
  | Call_root_instruction => snd (root_instruction s)
  | Call_check_active_agent => snd (check_active_agent s)
  | Call_before_model_callback => snd (before_model_callback s)
  | Call_send_message n t => snd (send_message n t s)
  end.

(** The store in which an agent is built: a new instance, nothing printed,
    nothing yielded. *)
Definition fresh_store (task_callback : option TaskUpdateCallback)
    (state : Dict.t PyVal) (w : World) : Store :=
  {| self := __init__ task_callback; state := state; console := [];
     yielded := []; world := w |}.

End WithExternals.

(** ** A scripted environment

    One concrete choice of collaborators, on which the model runs: three
    addresses answer with a card (two of them with the same agent name), one
    refuses the connection, and every other address answers with something
    that is no card. *)
Module Demo.

Definition inspiration : AgentCard.t :=
  AgentCard.mk "inspiration_agent" "Suggests destinations"
               "http://0.0.0.0:10001".

Definition inspiration_mirror : AgentCard.t :=
  AgentCard.mk "inspiration_agent" "Suggests destinations (mirror)"
               "http://0.0.0.0:10002".

Definition planning : AgentCard.t :=
  AgentCard.mk "planning_agent" "Finds flights and hotels"
               "http://0.0.0.0:10004".

Definition refused : PyExc := mkExc ConnectError "All connection attempts failed".

Definition not_a_card : PyExc :=
  mkExc (OtherException "a2a.client.errors.A2AClientJSONError")
        "JSON Error: Failed to validate agent card structure".

Definition card_at (address : string) : Result AgentCard.t :=
  if String.eqb address "http://0.0.0.0:10001" then Ok inspiration
  else if String.eqb address "http://0.0.0.0:10002" then Ok inspiration_mirror
  else if String.eqb address "http://0.0.0.0:10004" then Ok planning
  else if String.eqb address "http://0.0.0.0:10003" then Raise refused
  else Raise not_a_card.

(** [repr] of a string of printable ASCII characters other than the
    apostrophe and the backslash, of [None], of a [bool], of an [int], and
    of lists and dictionaries of such values. *)
Fixpoint repr_simple (v : PyVal) : string :=
  match v with
  | PyNone => "None"
  | PyBool true => "True"
  | PyBool false => "False"
  | PyInt z => str_int z
  | PyStr s => "'" ++ s ++ "'"
  | PyList items => "[" ++ join ", " (map repr_simple items) ++ "]"
  | PyDict items =>
      "{" ++ join ", " (map (fun kv => "'" ++ fst kv ++ "': "
                                       ++ repr_simple (snd kv)) items) ++ "}"
  end.

(** [model_dump(exclude_none=True)] of a function call. *)
Definition dump_call (fc : FunctionCall) : PyVal :=
  PyDict
    ((match fc_id fc with Some i => [("id", PyStr i)] | None => [] end)
     ++ (match fc_args fc with Some a => [("args", PyDict a)] | None => [] end)
     ++ (match fc_name fc with Some n => [("name", PyStr n)] | None => [] end))%list.

Definition lookup : FunctionCall :=
  {| fc_id := None; fc_args := None; fc_name := Some "send_message" |}.

Definition answer : FunctionResponse :=
  {| fr_id := None; fr_name := Some "send_message";
     fr_response := PyDict [("response", PyStr "done")] |}.

Definition part_of_text (t : string) : Part :=
  {| function_call := None; function_response := None; text := Some t |}.

Definition event_of_parts (ps : list Part) (final : bool) : Event :=
  {| content := Some {| role := Some "model"; parts := Some ps |};
     actions := Some {| escalate := None |};
     error_message := None;
     is_final_response := final |}.

Definition call_part : Part :=
  {| function_call := Some lookup; function_response := None;
     text := None |}.

Definition response_part : Part :=
  {| function_call := None; function_response := Some answer;
     text := None |}.

(** A part with both a function call and a function response set. *)
Definition both_part : Part :=
  {| function_call := Some lookup; function_response := Some answer;
     text := None |}.

Definition call_event : Event := event_of_parts [call_part] false.
Definition response_event : Event := event_of_parts [response_part] false.
Definition both_event : Event := event_of_parts [both_part] false.
Definition final_event : Event :=
  event_of_parts [part_of_text "Bon "; part_of_text "voyage"] true.
Definition unread_event : Event :=
  event_of_parts [part_of_text "never read"] false.

(** The stream the runner produces, chosen by the text of the message. *)
Definition stream_for (new_message : Content) : EventStream :=
  match parts new_message with
  | Some [p] =>
      match text p with
      | Some "both" =>
          {| events := [both_event; final_event]; stream_end := None |}
      | Some "plan" =>
          {| events :=
               [call_event; response_event; final_event; unread_event];
             stream_end := None |}
      | Some "fail" =>
          {| events := [call_event]; stream_end := Some refused |}
      | _ => {| events := []; stream_end := None |}
      end
  | _ => {| events := []; stream_end := None |}
  end.

(** The world is a counter of the calls made so far.  The remote agent
    at port 10004 is down when a message is sent to it; the others
    answer with a task named after the agent. *)
Definition externals : Externals :=
  {| World := nat;
     TaskUpdateCallback := unit;
     Task := string;
     Message := string;
     JSONRPCError := string;
     MessageSendParams := PyVal;
     SendMessageRequest := PyVal * PyVal;
     repr := repr_simple;
     pformat := repr_simple;
     uuid4 := fun w => (N.of_nat w, S w);
     now_strftime := fun w => ("2025-06-01 09:30:00", S w);
     get_agent_card := fun address w => (card_at address, S w);
     model_validate := fun payload => Ok payload;
     new_SendMessageRequest := fun id params => Ok (id, params);
     client_send_message :=
       fun client _ w =>
         (if String.eqb (RemoteAgentConnections.agent_url client)
                        "http://0.0.0.0:10004"
          then Raise refused
          else Ok {| root :=
                       SendMessageSuccessResponse
                         (ResultTask
                            (AgentCard.name
                               (RemoteAgentConnections.card client))) |},
          S w);
     model_dump_json := fun _ => "{}";
     model_dump := dump_call;
     run_async := fun _ _ new_message w => (stream_for new_message, S w) |}.

Definition start : @Store externals :=
  @fresh_store externals None [] 0.

(** The store once the agent is created over two addresses that answer. *)
Definition booted : @Store externals :=
  snd (@create externals
         ["http://0.0.0.0:10001"; "http://0.0.0.0:10004"] None start).

End Demo.

(** ** Vocabulary of the statements *)

Section Vocabulary.

Context {ext : Externals}.

(** The outcomes of the card resolutions that a run over the addresses
    makes, in order, starting in world [w]. *)
Fixpoint resolutions (addresses : list string) (w : World)
  : list (string * Result AgentCard.t) :=
  match addresses with
  | [] => []
  | address :: rest =>
      (address, fst (get_agent_card address w))
      :: resolutions rest (snd (get_agent_card address w))
  end.

(** The world after those resolutions. *)
Fixpoint world_after (addresses : list string) (w : World) : World :=
  match addresses with
  | [] => w
  | address :: rest => world_after rest (snd (get_agent_card address w))
  end.

(** The cards that were resolved, in the order of resolution. *)
Definition resolved_cards (rs : list (string * Result AgentCard.t))
  : list AgentCard.t :=
  flat_map (fun res => match snd res with Ok card => [card] | Raise _ => [] end)
           rs.

(** What one resolution does to the agent. *)
Definition register (a : TravelHostAgent) (res : string * Result AgentCard.t)
  : TravelHostAgent :=
  match snd res with
  | Ok card =>
      set_card (AgentCard.name card) card
        (set_connection (AgentCard.name card)
           (RemoteAgentConnections.mk card (fst res)) a)
  | Raise _ => a
  end.

(** The line printed when the resolution of [address] raises [e]. *)
Definition error_line (address : string) (e : PyExc) : string :=
  if isinstance_exc e H_ConnectError
  then "ERROR: Failed to get agent card from " ++ address ++ ": " ++ exc_str e
  else "ERROR: Failed to initialize connection for " ++ address ++ ": "
       ++ exc_str e.

Definition error_lines (rs : list (string * Result AgentCard.t))
  : list Output :=
  flat_map (fun res =>
              match snd res with
              | Ok _ => []
              | Raise e => [Stdout (error_line (fst res) e)]
              end) rs.

(** A store that differs from [s] in its agent, console and world. *)
Definition with_agent_console_world (s : Store) (a : TravelHostAgent)
    (out : list Output) (w : World) : Store :=
  {| self := a; state := state s; console := out; yielded := yielded s;
     world := w |}.

(** The invariant of the two dictionaries of the agent. *)
Definition same_keys (a : TravelHostAgent) : Prop :=
  Dict.keys (cards a) = Dict.keys (remote_agent_connections a).

(** The stores a program can reach: it builds an agent, then runs
    operations on it in any order. *)
Inductive reachable : Store -> Prop :=
| reach_fresh cb st w : reachable (fresh_store cb st w)
| reach_run op s : reachable s -> reachable (run op s).

(** The text of [self.agents] for the cards [cs]: one JSON object per
    card, joined by newlines, or the notice when there is none. *)
Definition listing (cs : list AgentCard.t) : string :=
  match cs with
  | [] => "No agents found"
  | _ => join newline (map card_info cs)
  end.

(** A field of the itinerary of the session state, with the default that
    stands in when the state has no itinerary, when the itinerary is no
    dictionary, or when it lacks the field. *)
Definition itinerary_field (k default : string) (st : Dict.t PyVal) : PyVal :=
  match Dict.get "itinerary" st with
  | Some (PyDict d) =>
      match Dict.get k d with
      | Some v => v
      | None => PyStr default
      end
  | _ => PyStr default
  end.

(** The active agent as the prompt shows it. *)
Definition active_agent_text (st : Dict.t PyVal) : string :=
  match Dict.get "session_id" st, Dict.get "session_active" st,
        Dict.get "active_agent" st with
  | Some _, Some flag, Some active =>
      if truthy flag then py_str active else "None"
  | _, _, _ => "None"
  end.

(** The user profile as the prompt shows it. *)
Definition user_profile_text (st : Dict.t PyVal) : string :=
  match Dict.get "user_profile" st with
  | None => "No user profile available"
  | Some (PyDict d) => json_dumps_indent 2 (PyDict d)
  | Some v => py_str v
  end.

Definition with_state (s : Store) (st : Dict.t PyVal) : Store :=
  {| self := self s; state := st; console := console s;
     yielded := yielded s; world := world s |}.

Definition with_world (s : Store) (w : World) : Store :=
  {| self := self s; state := state s; console := console s;
     yielded := yielded s; world := w |}.

(** The store once [send_message] has recorded the agent it talks to. *)
Definition activated (agent_name : string) (s : Store) : Store :=
  with_state s (Dict.set "active_agent" (PyStr agent_name) (state s)).

(** The task a response carries: the result of a success response, when
    that result is a task. *)
Definition task_of (resp : SendMessageResponse Task Message JSONRPCError)
  : option Task :=
  match root resp with
  | SendMessageSuccessResponse (ResultTask t) => Some t
  | _ => None
  end.


(** Every exception that a computation lets out satisfies [P]. *)
Definition raises_only {A} (P : PyExc -> Prop) (m : M A) : Prop :=
  forall s e, fst (m s) = Raise e -> P e.

Definition with_yielded (s : Store) (ys : list PyVal) : Store :=
  {| self := self s; state := state s; console := console s;
     yielded := ys; world := world s |}.

(** The message a part is relayed as: the tool call when the part carries
    one, else the tool response when it carries one, else nothing. *)
Definition part_messages (p : Part) : list PyVal :=
  match function_call p, function_response p with
  | Some fc, _ => [assistant_message (tool_call_content fc)]
  | None, Some fr => [assistant_message (tool_response_content fr)]
  | None, None => []
  end.

Definition event_messages (event : Event) : list PyVal :=
  match content_parts event with
  | Some ps => flat_map part_messages ps
  | None => []
  end.

(** The message that closes the relay at a final response: its text,
    when there is one. *)
Definition final_messages (event : Event) : list PyVal :=
  if truthy (PyStr (final_response_text event))
  then [assistant_message (final_response_text event)]
  else [].

(** The events that the loop reads: those up to and including the first
    final response. *)
Fixpoint consumed (evs : list Event) : list Event :=
  match evs with
  | [] => []
  | event :: rest =>
      event :: (if is_final_response event then [] else consumed rest)
  end.

(** The first final response of the stream, if it has one. *)
Fixpoint first_final (evs : list Event) : option Event :=
  match evs with
  | [] => None
  | event :: rest =>
      if is_final_response event then Some event else first_final rest
  end.

(** The exception that the iteration meets: the one that ends the stream,
    unless a final response comes first. *)
Definition interruption (stream : EventStream) : option PyExc :=
  match first_final (events stream) with
  | Some _ => None
  | None => stream_end stream
  end.

(** No event of the list is a final response. *)
Definition none_final (evs : list Event) : Prop :=
  Forall (fun event => is_final_response event = false) evs.

(** The content that the program passes to the runner for a message. *)
Definition user_content (message : string) : Content :=
  {| role := Some "user";
     parts := Some [{| function_call := None; function_response := None;
                       text := Some message |}] |}.

(** The stream the runner answers [message] with, in the world of [s]. *)
Definition stream_of (message : string) (s : Store) : EventStream :=
  fst (run_async USER_ID SESSION_ID (user_content message) (world s)).

(** What the handler of [get_response_from_agent] prints for [e]. *)
Definition error_report (e : PyExc) : list Output :=
  [Stdout ("Error in get_response_from_agent (Type: " ++ type_repr e
           ++ "): " ++ exc_str e);
   Traceback e].

(** A computation leaves one component of the store as it found it. *)
Definition preserves {X A} (f : Store -> X) (m : M A) : Prop :=
  forall s, f (snd (m s)) = f s.

End Vocabulary.

(** ** Vocabulary of the further statements *)

Section Sessions.

Context {ext : Externals}.

(** The session is marked active: ["session_active"] is in the state and
    its value is truthy. *)
Definition session_is_active (st : Dict.t PyVal) : bool :=
  match Dict.get "session_active" st with
  | Some v => truthy v
  | None => false
  end.

End Sessions.

Section Registries.

Context {ext : Externals}.

(** Each name is mapped to a card of that name and to the connection built
    from that card. *)
Definition matched (a : TravelHostAgent) : Prop :=
  forall k,
    match Dict.get k (cards a), Dict.get k (remote_agent_connections a) with
    | Some card, Some conn =>
        AgentCard.name card = k /\ RemoteAgentConnections.card conn = card
    | None, None => True
    | _, _ => False
    end.

End Registries.

(** The number of newline characters of a text. *)
Fixpoint newlines (s : string) : nat :=
  match s with
  | EmptyString => 0
  | String c rest =>
      (if Ascii.eqb c (ascii_of_N 10) then 1 else 0) + newlines rest
  end.

(** ** The parts of the events *)

Section Parts.

Context {ext : Externals}.

(** A [google.genai.types.Part] is documented to have one of its fields
    set: it does not carry a function call and a function response at the
    same time. *)
Definition one_field (part : Part) : bool :=
  match function_call part, function_response part with
  | Some _, Some _ => false
  | _, _ => true
  end.

(** Every part of every event of the stream has one field set. *)
Definition one_field_each (evs : list Event) : bool :=
  forallb (fun event =>
             match content_parts event with
             | Some ps => forallb one_field ps
             | None => true
             end) evs.

End Parts.

(** ** The rest of travel_concierge/agent.py *)

Section Conversion.

Context {ext : Externals}.

(** [a2a.types.Part] is the library's.  What reading [part.type] and
    [part.text] gives, a value or an exception such as [AttributeError],
    depends on its release; both reads are taken from the library. *)
Variable A2APart : Type.
Variable read_type : A2APart -> Result PyVal.
Variable read_text : A2APart -> Result PyVal.

(** [v == "text"] *)
Definition is_text (v : PyVal) : bool :=
  match v with
  | PyStr t => String.eqb t "text"
  | _ => false
  end.

(** Lines 36-41.  The tool context is not read; [part.type] is read for
    the test and again for the text of the notice. *)
Definition convert_part (part : A2APart) (tool_context : Dict.t PyVal)
  : Result PyVal :=
  match read_type part with
  | Raise e => Raise e
  | Ok t =>
      if is_text t then read_text part
      else
        match read_type part with
        | Raise e => Raise e
        | Ok t' => Ok (PyStr ("Unknown type: " ++ py_str t'))
        end
  end.

(** Lines 44-49: the loop appends to [rval] and ends with the first
    exception. *)
Definition convert_parts (part_list : list A2APart)
    (tool_context : Dict.t PyVal) : Result (list PyVal) :=
  fold_left
    (fun acc p =>
       match acc with
       | Raise e => Raise e
       | Ok rval =>
           match convert_part p tool_context with
           | Ok v => Ok (rval ++ [v])%list
           | Raise e => Raise e
           end
       end)
    part_list (Ok []).

End Conversion.

Arguments convert_part {ext A2APart} read_type read_text part tool_context.
Arguments convert_parts {ext A2APart} read_type read_text part_list tool_context.

(** [needle in hay], for two [str]. *)
Fixpoint is_substring (needle hay : string) : bool :=
  if String.prefix needle hay then true
  else
    match hay with
    | EmptyString => false
    | String _ rest => is_substring needle rest
    end.

Section Startup.

Context {ext : Externals}.

(** What [asyncio.run] raises instead of running the coroutine, if
    anything: it refuses to run when an event loop is running already. *)
Variable asyncio_run_refusal : World -> option PyExc.

(** [isinstance(e, RuntimeError)] *)
Variable isinstance_RuntimeError : PyExc -> bool.

(** [str(host_agent)]: the text of an object without a [__str__]. *)
Variable object_str : TravelHostAgent -> string.

(** Lines 322-326. *)
Definition remote_agent_urls : list string := ["http://0.0.0.0:10001"].

(** Lines 328-331. *)
Definition _async_main : M Agent :=
  bind (create remote_agent_urls None)
       (fun host_agent =>
          bind (print (object_str host_agent)) (fun _ => create_agent)).

Definition running_loop_text : string :=
  "asyncio.run() cannot be called from a running event loop".

(** Lines 319-344.  The branch that prints the warning has no [return]:
    the function then returns [None]. *)
Definition _get_initialized_routing_agent_sync : M (option Agent) :=
  fun s =>
    match
      match asyncio_run_refusal (world s) with
      | Some e => raise e
      | None => _async_main
      end s
    with
    | (Ok agent, s') => (Ok (Some agent), s')
    | (Raise e, s') =>
        if isinstance_RuntimeError e then
          if is_substring running_loop_text (exc_str e)
          then
            bind (print "Warning: Event loop already running. Initializing agent without remote connections.")
                 (fun _ => ret None) s'
          else (Raise e, s')
        else (Raise e, s')
    end.

End Startup.

(** ** Further scenes of the scripted environment *)
Module Scenes.

(** A session opened by the framework. *)
Definition in_session : @Store Demo.externals :=
  @with_state Demo.externals Demo.booted
    [("session_id", PyStr "s-1"); ("session_active", PyBool true)].

(** A state whose message metadata is a number. *)
Definition bad_metadata : @Store Demo.externals :=
  @with_state Demo.externals Demo.booted
    [("input_message_metadata", PyInt 5)].

(** A state that provides the three identifiers. *)
Definition with_identifiers : @Store Demo.externals :=
  @with_state Demo.externals Demo.booted
    [("task_id", PyStr "t-1"); ("context_id", PyStr "c-1");
     ("input_message_metadata", PyDict [("message_id", PyStr "m-1")])].

(** A final response without content that escalates. *)
Definition escalation_event : Event :=
  {| content := None;
     actions := Some {| escalate := Some true |};
     error_message := Some "quota exceeded";
     is_final_response := true |}.

(** A final response whose only part is a function call. *)
Definition quiet_event : Event := Demo.event_of_parts [Demo.call_part] true.

Definition stream_for (new_message : Content) : EventStream :=
  match parts new_message with
  | Some [p] =>
      match text p with
      | Some "escalate" =>
          {| events := [Demo.call_event; escalation_event; Demo.unread_event];
             stream_end := None |}
      | Some "quiet" =>
          {| events := [quiet_event]; stream_end := Some Demo.refused |}
      | _ => Demo.stream_for new_message
      end
  | _ => Demo.stream_for new_message
  end.

(** What pydantic raises for a payload that does not fit the model: a
    [ValidationError], which is a [ValueError]. *)
Definition validation_error : PyExc :=
  mkExc ValueError "1 validation error for MessageSendParams".

(** The validation of the payload: a task id that is no string is
    refused, as pydantic refuses it. *)
Definition validate_params (payload : PyVal) : Result PyVal :=
  match payload with
  | PyDict [("message", PyDict message)] =>
      match Dict.get "taskId" message with
      | Some (PyStr _) | None => Ok payload
      | Some _ => Raise validation_error
      end
  | _ => Ok payload
  end.

(** The scripted environment with a runner that also knows these two
    streams, and with this validation of the payload. *)
Definition externals : Externals :=
  {| World := nat;
     TaskUpdateCallback := unit;
     Task := string;
     Message := string;
     JSONRPCError := string;
     MessageSendParams := PyVal;
     SendMessageRequest := PyVal * PyVal;
     repr := Demo.repr_simple;
     pformat := Demo.repr_simple;
     uuid4 := @uuid4 Demo.externals;
     now_strftime := @now_strftime Demo.externals;
     get_agent_card := @get_agent_card Demo.externals;
     model_validate := validate_params;
     new_SendMessageRequest := @new_SendMessageRequest Demo.externals;
     client_send_message := @client_send_message Demo.externals;
     model_dump_json := @model_dump_json Demo.externals;
     model_dump := Demo.dump_call;
     run_async := fun _ _ new_message w => (stream_for new_message, S w) |}.

Definition start : @Store externals := @fresh_store externals None [] 0.


(** A release of the library whose parts have no attribute [type]. *)
Definition attribute_error : PyExc :=
  mkExc (OtherException "AttributeError")
        "'Part' object has no attribute 'type'".

Definition no_type (part : string) : Result PyVal := Raise attribute_error.

Definition no_text (part : string) : Result PyVal := Raise attribute_error.

(** [asyncio.run] finds no running loop. *)
Definition no_loop (w : nat) : option PyExc := None.

(** [asyncio.run] finds a running loop. *)
Definition loop_running (w : nat) : option PyExc :=
  Some (mkExc (OtherException "RuntimeError")
          "asyncio.run() cannot be called from a running event loop").

Definition is_runtime_error (e : PyExc) : bool :=
  match exc_class e with
  | OtherException q => String.eqb q "RuntimeError"
  | _ => false
  end.

Definition object_text (a : @TravelHostAgent Demo.externals) : string :=
  "<travel_concierge.agent.TravelHostAgent object at 0x7f3a5c0d2e90>".

End Scenes.

(** * Properties *)

(** ** Dictionaries *)

Lemma get_set_same {V} (k : string) (v : V) (d : Dict.t V) :
  Dict.get k (Dict.set k v d) = Some v.
Proof.
  induction d as [|[k' v'] d IH]; simpl.
  - now rewrite String.eqb_refl.
  - destruct (String.eqb k k') eqn:E; simpl.
    + now rewrite String.eqb_refl.
    + now rewrite E.
Qed.

Lemma get_set_other {V} (k k' : string) (v : V) (d : Dict.t V) :
  k <> k' -> Dict.get k' (Dict.set k v d) = Dict.get k' d.
Proof.
  intros Hne. induction d as [|[k0 v0] d IH]; simpl.
  - destruct (String.eqb k' k) eqn:E; [|reflexivity].
    apply String.eqb_eq in E. congruence.
  - destruct (String.eqb k k0) eqn:E; simpl.
    + apply String.eqb_eq in E. subst k0.
      destruct (String.eqb k' k) eqn:E'; [|reflexivity].
      apply String.eqb_eq in E'. congruence.
    + now rewrite IH.
Qed.

Lemma keys_set {V W} (k : string) (v : V) (w : W)
    (d1 : Dict.t V) (d2 : Dict.t W) :
  Dict.keys d1 = Dict.keys d2 ->
  Dict.keys (Dict.set k v d1) = Dict.keys (Dict.set k w d2).
Proof.
  revert d2. induction d1 as [|[k1 v1] d1 IH]; intros [|[k2 v2] d2] H;
    simpl in *; try discriminate; [reflexivity|].
  injection H as -> H.
  destruct (String.eqb k k2); simpl; f_equal; auto.
Qed.

Lemma contains_get {V} (k : string) (d : Dict.t V) :
  Dict.contains k d = true <-> exists v, Dict.get k d = Some v.
Proof.
  unfold Dict.contains. destruct (Dict.get k d); split; eauto;
    intros; try discriminate. now destruct H.
Qed.


Section Initialization.

Context {ext : Externals}.

(** ** The loop over the addresses *)

Lemma resolve_address_run (address : string) (s : Store) :
  resolve_address address s =
  (Ok tt,
   with_agent_console_world s
     (register (self s) (address, fst (get_agent_card address (world s))))
     (console s
      ++ error_lines [(address, fst (get_agent_card address (world s)))])%list
     (snd (get_agent_card address (world s)))).
Proof.
  unfold resolve_address, try_except, bind, call_raising,
    with_agent_console_world, register, error_lines, error_line.
  destruct (get_agent_card address (world s)) as [[card|e] w]; simpl.
  - now rewrite app_nil_r.
  - destruct e as [[| | | |q] msg]; reflexivity.
Qed.

Lemma for_each_resolve_run (addresses : list string) (s : Store) :
  for_each addresses resolve_address s =
  (Ok tt,
   with_agent_console_world s
     (fold_left register (resolutions addresses (world s)) (self s))
     (console s ++ error_lines (resolutions addresses (world s)))%list
     (world_after addresses (world s))).
Proof.
  revert s. induction addresses as [|address rest IH]; intros s; simpl.
  - unfold ret, with_agent_console_world. simpl. rewrite app_nil_r.
    now destruct s.
  - unfold bind. rewrite resolve_address_run, IH. simpl.
    unfold with_agent_console_world. simpl. f_equal. f_equal.
    unfold error_lines. simpl. now rewrite app_nil_r, <- app_assoc.
Qed.

Lemma for_each_app {A} (xs ys : list A) (body : A -> M unit) (s : Store) :
  for_each (xs ++ ys) body s =
  match for_each xs body s with
  | (Ok _, s1) => for_each ys body s1
  | (Raise e, s1) => (Raise e, s1)
  end.
Proof.
  revert s. induction xs as [|x xs IH]; intros s; simpl.
  - reflexivity.
  - unfold bind. destruct (body x s) as [[[]|e] s1]; [apply IH|reflexivity].
Qed.

(** The text that [populate_agents] stores in [self.agents]. *)
Lemma populate_agents_run (s : Store) :
  populate_agents s =
  (Ok tt,
   with_agent_console_world s
     (set_agents
        (match map card_info (Dict.values (cards (self s))) with
         | [] => "No agents found"
         | _ => join newline (map card_info (Dict.values (cards (self s))))
         end) (self s))
     (console s
      ++ [Stdout ("agent_info: "
                  ++ repr (PyList (map PyStr
                       (map card_info (Dict.values (cards (self s)))))))])%list
     (world s)).
Proof. reflexivity. Qed.

Lemma create_run (addresses : list string)
    (cb : option TaskUpdateCallback) (s : Store) :
  let a := fold_left register (resolutions addresses (world s))
             (__init__ cb) in
  exists line,
    create addresses cb s =
    (Ok (set_agents (listing (Dict.values (cards a))) a),
     with_agent_console_world s
       (set_agents (listing (Dict.values (cards a))) a)
       (console s ++ error_lines (resolutions addresses (world s))
        ++ [Stdout line])%list
       (world_after addresses (world s))).
Proof.
  intros a. unfold create, _async_init_components, bind at 1 2 3. simpl.
  rewrite for_each_resolve_run. cbv zeta. rewrite populate_agents_run.
  simpl. fold a.
  exists ("agent_info: "
          ++ repr (PyList (map PyStr (map card_info (Dict.values (cards a)))))).
  unfold get_self, with_agent_console_world. simpl.
  rewrite <- app_assoc. unfold listing.
  destruct (Dict.values (cards a)); reflexivity.
Qed.

(** ** What the registrations leave in the two dictionaries *)

Lemma register_cards_other (a : TravelHostAgent)
    (res : string * Result AgentCard.t) (k : string) :
  (forall card, snd res = Ok card -> AgentCard.name card <> k) ->
  Dict.get k (cards (register a res)) = Dict.get k (cards a)
  /\ Dict.get k (remote_agent_connections (register a res))
     = Dict.get k (remote_agent_connections a).
Proof.
  intros H. unfold register. destruct res as [address [card|e]]; simpl in *.
  - specialize (H card eq_refl). now rewrite !get_set_other.
  - auto.
Qed.

Lemma fold_register_other (rs : list (string * Result AgentCard.t))
    (a : TravelHostAgent) (k : string) :
  (forall address card, In (address, Ok card) rs -> AgentCard.name card <> k) ->
  Dict.get k (cards (fold_left register rs a)) = Dict.get k (cards a)
  /\ Dict.get k (remote_agent_connections (fold_left register rs a))
     = Dict.get k (remote_agent_connections a).
Proof.
  revert a. induction rs as [|res rs IH]; intros a H; simpl; [auto|].
  assert (Hres : forall card, snd res = Ok card -> AgentCard.name card <> k).
  { intros card E. destruct res as [address r]. simpl in E. subst r.
    apply (H address). now left. }
  destruct (register_cards_other a res k Hres) as [E1 E2].
  destruct (IH (register a res)) as [E3 E4].
  { intros address card Hin. apply (H address). now right. }
  split; congruence.
Qed.

Lemma fold_register_origin (rs : list (string * Result AgentCard.t))
    (a : TravelHostAgent) (k : string) :
  (forall card, Dict.get k (cards (fold_left register rs a)) = Some card ->
     Dict.get k (cards a) = Some card
     \/ exists address, In (address, Ok card) rs /\ AgentCard.name card = k)
  /\ (forall conn,
        Dict.get k (remote_agent_connections (fold_left register rs a))
        = Some conn ->
        Dict.get k (remote_agent_connections a) = Some conn
        \/ exists address card,
             In (address, Ok card) rs /\ AgentCard.name card = k
             /\ conn = RemoteAgentConnections.mk card address).
Proof.
  revert a. induction rs as [|[address r] rs IH]; intros a; simpl; [auto|].
  destruct (IH (register a (address, r))) as [IH1 IH2]. clear IH.
  split.
  - intros card H. destruct (IH1 _ H) as [H'|[address' [Hin Hn]]].
    + destruct r as [c|e]; unfold register in H'; simpl in H'; [|auto].
      destruct (string_dec (AgentCard.name c) k) as [E|E].
      * subst k. rewrite get_set_same in H'. injection H' as <-.
        right. exists address. auto.
      * rewrite get_set_other in H' by assumption. auto.
    + right. exists address'. auto.
  - intros conn H. destruct (IH2 _ H) as [H'|[address' [card [Hin [Hn Hc]]]]].
    + destruct r as [c|e]; unfold register in H'; simpl in H'; [|auto].
      destruct (string_dec (AgentCard.name c) k) as [E|E].
      * subst k. rewrite get_set_same in H'. injection H' as <-.
        right. exists address, c. auto.
      * rewrite get_set_other in H' by assumption. auto.
    + right. exists address', card. auto.
Qed.

Lemma register_same_keys (a : TravelHostAgent)
    (res : string * Result AgentCard.t) :
  same_keys a -> same_keys (register a res).
Proof.
  unfold same_keys, register. destruct res as [address [card|e]]; simpl; auto.
  intros H. now apply keys_set.
Qed.

Lemma fold_register_same_keys (rs : list (string * Result AgentCard.t))
    (a : TravelHostAgent) :
  same_keys a -> same_keys (fold_left register rs a).
Proof.
  revert a. induction rs as [|res rs IH]; intros a H; simpl; [assumption|].
  apply IH. now apply register_same_keys.
Qed.

End Initialization.

(** ** Frame rules: which component of the store a computation touches *)

Section Frames.

Context {ext : Externals}.

Lemma preserves_ret {X A} (f : Store -> X) (a : A) : preserves f (ret a).
Proof. intros s. reflexivity. Qed.

Lemma preserves_raise {X A} (f : Store -> X) (e : PyExc) :
  preserves f (@raise _ A e).
Proof. intros s. reflexivity. Qed.

Lemma preserves_lift {X A} (f : Store -> X) (r : Result A) :
  preserves f (lift r).
Proof. intros s. reflexivity. Qed.

Lemma preserves_bind {X A B} (f : Store -> X) (m : M A) (k : A -> M B) :
  preserves f m -> (forall a, preserves f (k a)) -> preserves f (bind m k).
Proof.
  intros Hm Hk s. unfold bind. specialize (Hm s).
  destruct (m s) as [[a|e] s1]; simpl in *.
  - now rewrite Hk.
  - assumption.
Qed.

Lemma preserves_getitem {X V} (f : Store -> X) (k : string) (d : Dict.t V) :
  preserves f (getitem k d).
Proof. intros s. unfold getitem. now destruct (Dict.get k d). Qed.

Lemma preserves_for_each {X A} (f : Store -> X) (xs : list A)
    (body : A -> M unit) :
  (forall x, preserves f (body x)) -> preserves f (for_each xs body).
Proof.
  intros H. induction xs as [|x xs IH]; simpl.
  - apply preserves_ret.
  - apply preserves_bind; auto.
Qed.

Lemma preserves_try_except {X A} (f : Store -> X) (body : M A)
    (handlers : list (Handled * (PyExc -> M A))) :
  preserves f body ->
  (forall h e, In h handlers -> preserves f (snd h e)) ->
  preserves f (try_except body handlers).
Proof.
  intros Hb Hh s. unfold try_except. specialize (Hb s).
  destruct (body s) as [[a|e] s1]; simpl in *; [assumption|].
  destruct (find (fun h => isinstance_exc e (fst h)) handlers)
    as [[c h]|] eqn:E; [|assumption].
  apply find_some in E. destruct E as [Hin _].
  specialize (Hh (c, h) e Hin s1). simpl in Hh. congruence.
Qed.

(** The primitives, component by component. *)

Lemma get_self_frame {X} (f : Store -> X) : preserves f get_self.
Proof. intros s. reflexivity. Qed.

Lemma get_state_frame {X} (f : Store -> X) : preserves f get_state.
Proof. intros s. reflexivity. Qed.

Lemma state_setitem_self (k : string) (v : PyVal) :
  preserves self (state_setitem k v).
Proof. intros s. reflexivity. Qed.

Lemma emit_self (o : Output) : preserves self (emit o).
Proof. intros s. reflexivity. Qed.

Lemma emit_state (o : Output) : preserves state (emit o).
Proof. intros s. reflexivity. Qed.

Lemma emit_yielded (o : Output) : preserves yielded (emit o).
Proof. intros s. reflexivity. Qed.

Lemma yield_self (v : PyVal) : preserves self (yield v).
Proof. intros s. reflexivity. Qed.

Lemma yield_state (v : PyVal) : preserves state (yield v).
Proof. intros s. reflexivity. Qed.

Lemma yield_console (v : PyVal) : preserves console (yield v).
Proof. intros s. reflexivity. Qed.

Lemma call_self {A} (g : World -> A * World) : preserves self (call g).
Proof. intros s. unfold call. now destruct (g (world s)). Qed.

Lemma call_state {A} (g : World -> A * World) : preserves state (call g).
Proof. intros s. unfold call. now destruct (g (world s)). Qed.

Lemma call_console {A} (g : World -> A * World) : preserves console (call g).
Proof. intros s. unfold call. now destruct (g (world s)). Qed.

Lemma call_yielded {A} (g : World -> A * World) : preserves yielded (call g).
Proof. intros s. unfold call. now destruct (g (world s)). Qed.

Lemma call_raising_self {A} (g : World -> Result A * World) :
  preserves self (call_raising g).
Proof. intros s. unfold call_raising. now destruct (g (world s)). Qed.

Lemma call_raising_state {A} (g : World -> Result A * World) :
  preserves state (call_raising g).
Proof. intros s. unfold call_raising. now destruct (g (world s)). Qed.

End Frames.

Create HintDb frame.

#[local] Hint Resolve preserves_ret preserves_raise preserves_lift
  preserves_getitem get_self_frame get_state_frame state_setitem_self
  emit_self emit_state emit_yielded yield_self yield_state yield_console
  call_self call_state call_console call_yielded call_raising_self
  call_raising_state : frame.

(** Walks down a computation: a bind splits, a test or a match on a value
    splits into its cases, a primitive is closed from the hints. *)
Ltac frame :=
  repeat first
    [ progress auto with frame
    | apply preserves_bind; [|intro]
    | apply preserves_for_each; intro
    | match goal with
      | |- preserves _ (if ?b then _ else _) => destruct b
      | |- preserves _ (match ?x with _ => _ end) => destruct x
      | |- preserves _ (print _) => unfold print
      | |- preserves _ fresh_uuid_str => unfold fresh_uuid_str
      end ].

Section Operations.

Context {ext : Externals}.

(** ** The operations that leave the agent alone *)

Lemma build_message_request_self (task : string) :
  preserves self (build_message_request task).
Proof. unfold build_message_request. frame. Qed.

Lemma build_message_request_state (task : string) :
  preserves state (build_message_request task).
Proof. unfold build_message_request. frame. Qed.

Lemma read_response_self
    (r : SendMessageResponse Task Message JSONRPCError) :
  preserves self (read_response r).
Proof. unfold read_response. frame. Qed.

Lemma read_response_state
    (r : SendMessageResponse Task Message JSONRPCError) :
  preserves state (read_response r).
Proof. unfold read_response. frame. Qed.

Lemma send_message_self (agent_name task : string) :
  preserves self (send_message agent_name task).
Proof.
  unfold send_message. frame; auto using build_message_request_self,
    read_response_self.
Qed.

Lemma check_active_agent_frame {X} (f : Store -> X) :
  preserves f check_active_agent.
Proof. unfold check_active_agent. frame. Qed.

Lemma root_instruction_self : preserves self root_instruction.
Proof.
  unfold root_instruction. frame; auto using check_active_agent_frame.
Qed.

Lemma root_instruction_state : preserves state root_instruction.
Proof.
  unfold root_instruction. frame; auto using check_active_agent_frame.
Qed.

Lemma before_model_callback_self : preserves self before_model_callback.
Proof. unfold before_model_callback. frame. Qed.

End Operations.

Section Bootstrap.

Context {ext : Externals}.

(** ** The bootstrap: resolve the card, construct the client, store both *)

(** C1, as amended.  [create] returns the agent it leaves in the store.
    For each address whose resolution succeeds with a card, and after
    which no address of the list resolves to a card of the same name, the
    agent maps the name of the card to the connection built from that card
    and that address, and to that card.  Every entry of either dictionary
    comes from a resolution that succeeded: a failed one adds nothing. *)
Theorem create_stores_last_resolution
    (addresses : list string) (cb : option TaskUpdateCallback) (s : Store) :
  let rs := resolutions addresses (world s) in
  let a := self (snd (create addresses cb s)) in
  fst (create addresses cb s) = Ok a
  /\ (forall pre address card post,
        rs = (pre ++ (address, Ok card) :: post)%list ->
        (forall address' card',
           In (address', Ok card') post ->
           AgentCard.name card' <> AgentCard.name card) ->
        Dict.get (AgentCard.name card) (remote_agent_connections a)
        = Some (RemoteAgentConnections.mk card address)
        /\ Dict.get (AgentCard.name card) (cards a) = Some card)
  /\ (forall k conn,
        Dict.get k (remote_agent_connections a) = Some conn ->
        exists address card,
          In (address, Ok card) rs /\ AgentCard.name card = k
          /\ conn = RemoteAgentConnections.mk card address)
  /\ (forall k card,
        Dict.get k (cards a) = Some card ->
        exists address, In (address, Ok card) rs /\ AgentCard.name card = k).
Proof.
  intros rs a. destruct (create_run addresses cb s) as [line E].
  subst a. rewrite E. simpl. fold rs. split; [reflexivity|].
  split; [|split].
  - intros pre address card post Hrs Hlast. rewrite Hrs.
    rewrite fold_left_app. simpl.
    destruct (fold_register_other post
                (register (fold_left register pre (__init__ cb))
                          (address, Ok card))
                (AgentCard.name card) Hlast) as [E1 E2].
    rewrite E1, E2. unfold register. simpl.
    rewrite !get_set_same. auto.
  - intros k conn H.
    destruct (fold_register_origin rs (__init__ cb) k) as [_ Ho].
    destruct (Ho conn H) as [H0|H1]; [discriminate|assumption].
  - intros k card H.
    destruct (fold_register_origin rs (__init__ cb) k) as [Ho _].
    destruct (Ho card H) as [H0|H1]; [discriminate|assumption].
Qed.

(** C6.  When the resolution of an address of the list raises, whatever
    the class of the exception, the loop body ends normally: it has printed
    one line that names the address and the exception, the agent is the
    one it was (no entry gained), and the rest of the list is processed
    from there, the whole initialization included. *)
Theorem failed_resolution_is_skipped
    (pre post : list string) (address : string) (e : PyExc) (s : Store) :
  let s1 := snd (for_each pre resolve_address s) in
  fst (get_agent_card address (world s1)) = Raise e ->
  let s2 :=
    with_agent_console_world s1 (self s1)
      (console s1 ++ [Stdout (error_line address e)])%list
      (snd (get_agent_card address (world s1))) in
  resolve_address address s1 = (Ok tt, s2)
  /\ remote_agent_connections (self s2) = remote_agent_connections (self s1)
  /\ cards (self s2) = cards (self s1)
  /\ for_each (pre ++ address :: post) resolve_address s
     = for_each post resolve_address s2
  /\ _async_init_components (pre ++ address :: post) s
     = bind (for_each post resolve_address) (fun _ => populate_agents) s2.
Proof.
  intros s1 He s2.
  assert (Hstep : resolve_address address s1 = (Ok tt, s2)).
  { rewrite resolve_address_run. unfold s2, register, error_lines.
    simpl. rewrite He. simpl. reflexivity. }
  assert (Hloop : for_each (pre ++ address :: post) resolve_address s
                  = for_each post resolve_address s2).
  { rewrite for_each_app. unfold s1 in *.
    rewrite for_each_resolve_run in *. simpl in *.
    unfold bind. rewrite Hstep. reflexivity. }
  repeat split; try assumption.
  unfold _async_init_components, bind at 1. rewrite Hloop.
  unfold bind. reflexivity.
Qed.

(** The initialization itself never raises. *)
Lemma async_init_components_returns (addresses : list string) (s : Store) :
  fst (_async_init_components addresses s) = Ok tt.
Proof.
  unfold _async_init_components, bind. rewrite for_each_resolve_run.
  reflexivity.
Qed.

(** ** The invariant of the two dictionaries *)

Lemma async_init_components_same_keys (addresses : list string) (s : Store) :
  same_keys (self s) ->
  same_keys (self (snd (_async_init_components addresses s))).
Proof.
  intros H. unfold _async_init_components, bind.
  rewrite for_each_resolve_run. simpl.
  now apply fold_register_same_keys.
Qed.

Lemma run_same_keys (op : Operation) (s : Store) :
  same_keys (self s) -> same_keys (self (run op s)).
Proof.
  intros H. destruct op; simpl.
  - now apply async_init_components_same_keys.
  - destruct (create_run remote_agent_addresses task_callback0 s)
      as [line E].
    rewrite E. simpl. apply (fold_register_same_keys _ (__init__ _)).
    reflexivity.
  - assumption.
  - now rewrite root_instruction_self.
  - now rewrite check_active_agent_frame.
  - now rewrite before_model_callback_self.
  - now rewrite send_message_self.
Qed.

(** C8.  In every store the program can reach (an agent is built, then
    operations run on it in any order and with any arguments), the keys of
    [self.cards] are the keys of [self.remote_agent_connections], in the
    same order. *)
Theorem cards_and_connections_share_keys (s : Store) :
  reachable s ->
  Dict.keys (cards (self s)) = Dict.keys (remote_agent_connections (self s)).
Proof.
  induction 1 as [cb st w|op s Hr IH].
  - reflexivity.
  - now apply run_same_keys.
Qed.

End Bootstrap.

Section Prompt.

Context {ext : Externals}.

(** ** The listing of the agents *)

Lemma set_fresh {V} (k : string) (v : V) (d : Dict.t V) :
  ~ In k (Dict.keys d) -> Dict.set k v d = (d ++ [(k, v)])%list.
Proof.
  induction d as [|[k' v'] d IH]; simpl; intros H; [reflexivity|].
  destruct (String.eqb k k') eqn:E.
  - apply String.eqb_eq in E. subst. tauto.
  - rewrite IH by tauto. reflexivity.
Qed.

Lemma set_not_nil {V} (k : string) (v : V) (d : Dict.t V) :
  Dict.set k v d <> [].
Proof.
  destruct d as [|[k' v'] d]; simpl; [discriminate|].
  destruct (String.eqb k k'); discriminate.
Qed.

Lemma fold_register_nothing (rs : list (string * Result AgentCard.t))
    (a : TravelHostAgent) :
  resolved_cards rs = [] -> fold_left register rs a = a.
Proof.
  revert a. induction rs as [|[address [card|e]] rs IH]; intros a H;
    simpl in *; [reflexivity|discriminate|].
  unfold register. simpl. auto.
Qed.

Lemma fold_register_keeps_cards (rs : list (string * Result AgentCard.t))
    (a : TravelHostAgent) :
  cards a <> [] -> cards (fold_left register rs a) <> [].
Proof.
  revert a. induction rs as [|[address [card|e]] rs IH]; intros a H;
    simpl; auto.
  apply IH. unfold register. simpl. apply set_not_nil.
Qed.

Lemma fold_register_something (rs : list (string * Result AgentCard.t))
    (a : TravelHostAgent) :
  resolved_cards rs <> [] -> cards (fold_left register rs a) <> [].
Proof.
  revert a. induction rs as [|[address [card|e]] rs IH]; intros a H;
    simpl in *.
  - congruence.
  - apply fold_register_keeps_cards. unfold register. simpl.
    apply set_not_nil.
  - unfold register at 2. simpl. auto.
Qed.

Lemma fold_register_distinct (rs : list (string * Result AgentCard.t))
    (a : TravelHostAgent) :
  NoDup (Dict.keys (cards a) ++ map AgentCard.name (resolved_cards rs)) ->
  cards (fold_left register rs a)
  = (cards a
     ++ map (fun c => (AgentCard.name c, c)) (resolved_cards rs))%list.
Proof.
  revert a. induction rs as [|[address [card|e]] rs IH]; intros a H;
    simpl in *.
  - now rewrite app_nil_r.
  - assert (Hfresh : ~ In (AgentCard.name card) (Dict.keys (cards a))).
    { apply NoDup_remove_2 in H. intros Hin. apply H.
      apply in_or_app. now left. }
    rewrite IH; unfold register; simpl; rewrite (set_fresh _ _ _ Hfresh).
    + now rewrite <- app_assoc.
    + unfold Dict.keys in *. rewrite map_app. simpl.
      rewrite <- app_assoc. exact H.
  - unfold register at 2. simpl. auto.
Qed.

(** ** The root instruction *)

Lemma check_active_agent_run (s : Store) :
  check_active_agent s
  = (Ok [("active_agent", PyStr (active_agent_text (state s)))], s).
Proof.
  unfold check_active_agent, active_agent_text, bind, get_state, getitem,
    Dict.contains.
  destruct (Dict.get "session_id" (state s)); simpl;
    destruct (Dict.get "session_active" (state s)) as [flag|]; simpl;
    try reflexivity.
  all: unfold ret; destruct (truthy flag); simpl; try reflexivity.
  all: destruct (Dict.get "active_agent" (state s)); reflexivity.
Qed.

Lemma root_instruction_run (s : Store) :
  root_instruction s
  = (Ok (instruction_role ++ agents (self s)
         ++ instruction_context ++ fst (now_strftime (world s))
         ++ instruction_profile ++ user_profile_text (state s)
         ++ instruction_trip
         ++ trip_info (itinerary_field "destination" "Not determined" (state s))
                      (itinerary_field "start_date" "Not set" (state s))
                      (itinerary_field "end_date" "Not set" (state s))
                      (PyStr (active_agent_text (state s)))
         ++ instruction_rules),
     with_agent_console_world s (self s) (console s)
       (snd (now_strftime (world s)))).
Proof.
  unfold root_instruction, bind at 1. rewrite check_active_agent_run.
  unfold bind, get_state, call, get_self, ret, with_agent_console_world,
    itinerary_field, user_profile_text, Dict.get_default.
  destruct (now_strftime (world s)) as [now w]. simpl.
  destruct (Dict.get "itinerary" (state s)) as [[]|];
    destruct (Dict.get "user_profile" (state s)) as [[]|]; reflexivity.
Qed.

(** C7, as amended.  After initialization [self.agents] is the notice
    "No agents found" when no card was resolved, and otherwise the JSON
    objects with the name and the description of the cards that
    [self.cards] holds, in its insertion order, joined by newlines; these
    cards are the resolved cards, in the order of resolution, when the
    names of the resolved cards are pairwise distinct.  [root_instruction]
    returns, without raising and without touching the agent or the session
    state, the prompt made of the fixed text around [self.agents], the
    current time, the user profile and the trip context: the destination,
    the start date and the end date of the itinerary of the session state,
    with "Not determined" and "Not set" where the itinerary lacks them,
    and the active agent. *)
Theorem agents_listing_and_prompt
    (addresses : list string) (cb : option TaskUpdateCallback) (s : Store) :
  let rs := resolutions addresses (world s) in
  let a := self (snd (create addresses cb s)) in
  (resolved_cards rs = [] -> agents a = "No agents found")
  /\ (resolved_cards rs <> [] ->
      agents a = join newline (map card_info (Dict.values (cards a))))
  /\ (NoDup (map AgentCard.name (resolved_cards rs)) ->
      Dict.values (cards a) = resolved_cards rs)
  /\ (forall s0 : Store,
        root_instruction s0
        = (Ok (instruction_role ++ agents (self s0)
               ++ instruction_context ++ fst (now_strftime (world s0))
               ++ instruction_profile ++ user_profile_text (state s0)
               ++ instruction_trip
               ++ trip_info
                    (itinerary_field "destination" "Not determined" (state s0))
                    (itinerary_field "start_date" "Not set" (state s0))
                    (itinerary_field "end_date" "Not set" (state s0))
                    (PyStr (active_agent_text (state s0)))
               ++ instruction_rules),
           with_agent_console_world s0 (self s0) (console s0)
             (snd (now_strftime (world s0))))).
Proof.
  intros rs a. destruct (create_run addresses cb s) as [line E].
  subst a. rewrite E. simpl. fold rs.
  split; [|split; [|split]].
  - intros H. rewrite (fold_register_nothing rs _ H). reflexivity.
  - intros H. pose proof (fold_register_something rs (__init__ cb) H) as Hne.
    unfold listing.
    destruct (cards (fold_left register rs (__init__ cb))) eqn:Ec;
      [congruence|reflexivity].
  - intros H. rewrite fold_register_distinct by exact H. simpl.
    unfold Dict.values. rewrite map_map. simpl. apply map_id.
  - intros s0. apply root_instruction_run.
Qed.

End Prompt.

(** ** Where an exception comes from *)

Section Blame.

Context {ext : Externals}.

Variable P : PyExc -> Prop.

Lemma raises_only_ret {A} (a : A) : raises_only P (ret a).
Proof. intros s e H. discriminate. Qed.





Lemma raises_only_call {A} (g : World -> A * World) : raises_only P (call g).
Proof. intros s e. unfold call. destruct (g (world s)). discriminate. Qed.


Lemma raises_only_get_state : raises_only P get_state.
Proof. intros s e H. discriminate. Qed.

Lemma raises_only_get_self : raises_only P get_self.
Proof. intros s e H. discriminate. Qed.

Lemma raises_only_emit (o : Output) : raises_only P (emit o).
Proof. intros s e H. discriminate. Qed.

Lemma raises_only_state_setitem (k : string) (v : PyVal) :
  raises_only P (state_setitem k v).
Proof. intros s e H. discriminate. Qed.

End Blame.

Create HintDb blame.

#[local] Hint Resolve raises_only_ret raises_only_call raises_only_get_state
  raises_only_get_self raises_only_emit raises_only_state_setitem : blame.


Section Sending.

Context {ext : Externals}.

(** ** send_message *)

Lemma getitem_present {V} (k : string) (d : Dict.t V) (v : V) (s : Store) :
  Dict.get k d = Some v -> getitem k d s = (Ok v, s).
Proof. intros H. unfold getitem. now rewrite H. Qed.

(** With the agent known, [send_message] is its three phases in a row,
    in the store where the active agent is recorded. *)
Lemma send_message_known (agent_name task : string)
    (client : RemoteAgentConnections.t) (s : Store) :
  Dict.get agent_name (remote_agent_connections (self s)) = Some client ->
  send_message agent_name task s
  = match build_message_request task (activated agent_name s) with
    | (Raise e, s1) => (Raise e, s1)
    | (Ok req, s1) =>
        match client_send_message client req (world s1) with
        | (Raise e, w2) => (Raise e, with_world s1 w2)
        | (Ok resp, w2) => read_response resp (with_world s1 w2)
        end
    end.
Proof.
  intros H. unfold send_message, bind at 1, get_self. simpl.
  unfold Dict.contains. rewrite H. simpl.
  unfold bind at 1, state_setitem. simpl.
  unfold bind at 1. rewrite (getitem_present _ _ client _ H). simpl.
  unfold activated, with_state, bind at 1.
  destruct (build_message_request task _) as [[req|e] s1]; [|reflexivity].
  unfold bind, call_raising, with_world.
  destruct (client_send_message client req (world s1)) as [[resp|e] w2];
    reflexivity.
Qed.

Lemma send_message_unknown (agent_name task : string) (s : Store) :
  Dict.contains agent_name (remote_agent_connections (self s)) = false ->
  send_message agent_name task s
  = (Raise (mkExc ValueError ("Agent " ++ agent_name ++ " not found")), s).
Proof.
  intros H. unfold send_message, bind, get_self. simpl. now rewrite H.
Qed.

Lemma read_response_run
    (resp : SendMessageResponse Task Message JSONRPCError) (s : Store) :
  fst (read_response resp s) = Ok (task_of resp).
Proof.
  unfold read_response, task_of, bind, print, emit. simpl.
  destruct (root resp) as [[t|m]|err]; reflexivity.
Qed.


Lemma send_message_records_agent (agent_name task : string) (s : Store) :
  Dict.contains agent_name (remote_agent_connections (self s)) = true ->
  state (snd (send_message agent_name task s))
  = Dict.set "active_agent" (PyStr agent_name) (state s).
Proof.
  intros H. apply contains_get in H. destruct H as [client H].
  rewrite (send_message_known _ task _ _ H).
  pose proof (build_message_request_state task (activated agent_name s)) as Hb.
  destruct (build_message_request task (activated agent_name s))
    as [[req|e] s1]; simpl in Hb; [|exact Hb].
  destruct (client_send_message client req (world s1)) as [[resp|e] w2].
  - rewrite read_response_state. exact Hb.
  - exact Hb.
Qed.


(** C2, as amended.  [send_message] has no handler around the call of the
    remote client: for an agent name of [self.remote_agent_connections],
    once the request is built, an exception that [client.send_message]
    raises, a connection error included, is the exception [send_message]
    raises to its caller; the session state then already names the agent as
    the active one. *)
Theorem send_message_propagates_client_errors
    (agent_name task : string) (client : RemoteAgentConnections.t)
    (req : SendMessageRequest) (e : PyExc) (s s1 : Store) :
  Dict.get agent_name (remote_agent_connections (self s)) = Some client ->
  build_message_request task (activated agent_name s) = (Ok req, s1) ->
  fst (client_send_message client req (world s1)) = Raise e ->
  fst (send_message agent_name task s) = Raise e
  /\ Dict.get "active_agent" (state (snd (send_message agent_name task s)))
     = Some (PyStr agent_name).
Proof.
  intros H Hb Hc. split.
  - rewrite (send_message_known _ task _ _ H), Hb.
    destruct (client_send_message client req (world s1)) as [[resp|e'] w2];
      simpl in *; congruence.
  - rewrite send_message_records_agent.
    + apply get_set_same.
    + apply contains_get. eauto.
Qed.

(** C3.  For an agent name of [self.remote_agent_connections], once the
    request is built and the remote client has returned a response,
    [send_message] returns without raising: the task, when the response is
    a success response whose result is a task, and [None] when the
    response is no success response or its result is no task. *)
Theorem send_message_reads_response
    (agent_name task : string) (client : RemoteAgentConnections.t)
    (req : SendMessageRequest)
    (resp : SendMessageResponse Task Message JSONRPCError) (s s1 : Store) :
  Dict.get agent_name (remote_agent_connections (self s)) = Some client ->
  build_message_request task (activated agent_name s) = (Ok req, s1) ->
  fst (client_send_message client req (world s1)) = Ok resp ->
  (forall t, root resp = SendMessageSuccessResponse (ResultTask t) ->
     fst (send_message agent_name task s) = Ok (Some t))
  /\ ((forall t, root resp <> SendMessageSuccessResponse (ResultTask t)) ->
      fst (send_message agent_name task s) = Ok None).
Proof.
  intros H Hb Hc.
  assert (E : fst (send_message agent_name task s) = Ok (task_of resp)).
  { rewrite (send_message_known _ task _ _ H), Hb.
    destruct (client_send_message client req (world s1)) as [[resp'|e'] w2];
      simpl in Hc; [|discriminate].
    injection Hc as ->. apply read_response_run. }
  rewrite E. unfold task_of. split.
  - intros t Ht. now rewrite Ht.
  - intros Hn. destruct (root resp) as [[t|m]|err]; try reflexivity.
    now elim (Hn t).
Qed.


End Sending.

Section Payload.

Context {ext : Externals}.

(** ** create_send_message_payload *)

(** C10.  Whatever the text, the task id and the context id,
    [create_send_message_payload] returns a dictionary with the one key
    ["message"], whose value has the role ["user"], exactly one part, of
    type ["text"] and carrying the text, and the hexadecimal form of a
    new UUID as ["messageId"].  The message has a key ["taskId"] if and
    only if the task id is truthy, and its value is then the task id; the
    same holds of ["contextId"] and the context id. *)
Theorem create_send_message_payload_shape
    (text : string) (task_id context_id : option string) (s : Store) :
  exists message,
    create_send_message_payload text task_id context_id s
    = (Ok [("message", PyDict message)],
       with_world s (snd (uuid4 (world s))))
    /\ Dict.get "role" message = Some (PyStr "user")
    /\ Dict.get "parts" message
       = Some (PyList [PyDict [("type", PyStr "text"); ("text", PyStr text)]])
    /\ Dict.get "messageId" message
       = Some (PyStr (uuid_hex (fst (uuid4 (world s)))))
    /\ (Dict.contains "taskId" message = true
        <-> truthy (opt_val task_id) = true)
    /\ (truthy (opt_val task_id) = true ->
        Dict.get "taskId" message = Some (opt_val task_id))
    /\ (Dict.contains "contextId" message = true
        <-> truthy (opt_val context_id) = true)
    /\ (truthy (opt_val context_id) = true ->
        Dict.get "contextId" message = Some (opt_val context_id)).
Proof.
  unfold create_send_message_payload, bind, call, ret, with_world.
  destruct (uuid4 (world s)) as [u w]. simpl.
  destruct task_id as [[|c1 t1]|], context_id as [[|c2 t2]|]; simpl;
    eexists; (split; [reflexivity|]); simpl;
    repeat split; intros; try reflexivity; try discriminate.
Qed.

End Payload.

Section Relay.

Context {ext : Externals}.

(** ** get_response_from_agent *)

Lemma relay_part_run (part : Part) (s : Store) :
  relay_part part s
  = (Ok tt, with_yielded s (yielded s ++ part_messages part)%list).
Proof.
  unfold relay_part, part_messages, with_yielded.
  destruct (function_call part); [reflexivity|].
  destruct (function_response part); [reflexivity|].
  unfold ret. rewrite app_nil_r. now destruct s.
Qed.

Lemma for_each_relay_part_run (ps : list Part) (s : Store) :
  for_each ps relay_part s
  = (Ok tt, with_yielded s (yielded s ++ flat_map part_messages ps)%list).
Proof.
  revert s. induction ps as [|p ps IH]; intros s; simpl.
  - unfold ret, with_yielded. rewrite app_nil_r. now destruct s.
  - unfold bind. rewrite relay_part_run, IH. unfold with_yielded. simpl.
    now rewrite <- app_assoc.
Qed.

Lemma relay_event_parts_run (event : Event) (s : Store) :
  match content_parts event with
  | Some ps => for_each ps relay_part
  | None => ret tt
  end s
  = (Ok tt, with_yielded s (yielded s ++ event_messages event)%list).
Proof.
  unfold event_messages. destruct (content_parts event) as [ps|].
  - apply for_each_relay_part_run.
  - unfold ret, with_yielded. rewrite app_nil_r. now destruct s.
Qed.

(** The relay stops at the first final response: what follows it in the
    stream, an exception included, is never reached. *)
Lemma relay_events_run (evs : list Event) (ending : option PyExc)
    (s : Store) :
  relay_events evs ending s
  = (match interruption {| events := evs; stream_end := ending |} with
     | None => Ok tt
     | Some e => Raise e
     end,
     with_yielded s
       (yielded s ++ flat_map event_messages (consumed evs)
        ++ match first_final evs with
           | Some event => final_messages event
           | None => []
           end)%list).
Proof.
  unfold interruption. simpl. revert s.
  induction evs as [|event rest IH]; intros s.
  - simpl. unfold with_yielded. rewrite app_nil_r.
    destruct ending; destruct s; reflexivity.
  - cbn [relay_events consumed first_final flat_map]. unfold bind.
    rewrite relay_event_parts_run.
    destruct (is_final_response event).
    + unfold final_messages.
      match goal with |- context [truthy ?v] => destruct (truthy v) end;
        unfold with_yielded, yield, ret; simpl;
        now rewrite ?app_nil_r, <- ?app_assoc.
    + rewrite IH. unfold with_yielded. simpl. now rewrite <- !app_assoc.
Qed.

Lemma none_final_consumed (evs : list Event) :
  none_final evs -> consumed evs = evs /\ first_final evs = None.
Proof.
  induction 1 as [|event rest Hev Hrest [IH1 IH2]]; simpl; [auto|].
  rewrite Hev, IH1, IH2. auto.
Qed.


Lemma get_response_from_agent_run (message : string)
    (history : list PyVal) (s : Store) :
  get_response_from_agent message history s
  = (Ok tt,
     {| self := self s; state := state s;
        console :=
          (console s
           ++ match interruption (stream_of message s) with
              | Some e => error_report e
              | None => []
              end)%list;
        yielded :=
          (yielded s
           ++ flat_map event_messages (consumed (events (stream_of message s)))
           ++ match first_final (events (stream_of message s)) with
              | Some event => final_messages event
              | None => []
              end
           ++ match interruption (stream_of message s) with
              | Some _ => [assistant_message error_notice]
              | None => []
              end)%list;
        world := snd (run_async USER_ID SESSION_ID (user_content message)
                        (world s)) |}).
Proof.
  unfold stream_of.
  unfold get_response_from_agent, try_except, bind at 1, call.
  fold (user_content message).
  destruct (run_async USER_ID SESSION_ID (user_content message) (world s))
    as [stream w]. simpl.
  rewrite relay_events_run. destruct stream as [evs ending].
  cbn [events stream_end].
  destruct (interruption {| events := evs; stream_end := ending |}) as [e|];
    simpl.
  - unfold bind, print, emit, yield, error_report. simpl.
    now rewrite <- !app_assoc.
  - unfold with_yielded. simpl. now rewrite !app_nil_r.
Qed.

Lemma consumed_incl (evs : list Event) (ev : Event) :
  In ev (consumed evs) -> In ev evs.
Proof.
  induction evs as [|event rest IH]; simpl; [auto|].
  intros [E|H]; [now left|].
  destruct (is_final_response event); [destruct H|]. right. now apply IH.
Qed.

Lemma one_field_each_part (evs : list Event) (ev : Event) (ps : list Part)
    (part : Part) :
  one_field_each evs = true -> In ev evs -> content_parts ev = Some ps ->
  In part ps -> one_field part = true.
Proof.
  intros Hw Hi Hc Hp. unfold one_field_each in Hw.
  rewrite forallb_forall in Hw. specialize (Hw ev Hi). rewrite Hc in Hw.
  rewrite forallb_forall in Hw. now apply Hw.
Qed.

(** C4.  The parts of the events are those of [google.genai], which have
    one field set: none carries a function call and a function response
    at once.  For every stream of such events the generator ends normally,
    having yielded, in order, the messages of the parts of the events it
    reads (those up to and including the first final response, where the
    iteration stops), then the message of that final response, then the
    error notice if the stream raised before any final response.  Each
    part, of an event read, that carries a function call yields an
    ["assistant"] dictionary whose content announces the tool call by its
    name; each part that carries a function response yields an
    ["assistant"] dictionary whose content announces the tool response by
    its name.  The text of the final response is the concatenation of the
    non-empty texts of its parts, and, when it is not empty, it is the
    last message yielded. *)
Theorem relay_reshapes_events (message : string) (history : list PyVal)
    (s : Store) :
  let evs := events (stream_of message s) in
  let s' := snd (get_response_from_agent message history s) in
  one_field_each evs = true ->
  fst (get_response_from_agent message history s) = Ok tt
  /\ yielded s'
     = (yielded s ++ flat_map event_messages (consumed evs)
        ++ match first_final evs with
           | Some event => final_messages event
           | None => []
           end
        ++ match interruption (stream_of message s) with
           | Some _ => [assistant_message error_notice]
           | None => []
           end)%list
  /\ (forall ev ps part fc,
        In ev (consumed evs) -> content_parts ev = Some ps -> In part ps ->
        function_call part = Some fc ->
        In (PyDict [("role", PyStr "assistant");
                    ("content", PyStr (tool_call_content fc))])
           (yielded s')
        /\ exists rest,
             tool_call_content fc
             = "🛠️ **Tool Call: " ++ fmt_opt (fc_name fc) ++ rest)
  /\ (forall ev ps part fr,
        In ev (consumed evs) -> content_parts ev = Some ps -> In part ps ->
        function_response part = Some fr ->
        In (PyDict [("role", PyStr "assistant");
                    ("content", PyStr (tool_response_content fr))])
           (yielded s')
        /\ exists rest,
             tool_response_content fr
             = "⚡ **Tool Response from " ++ fmt_opt (fr_name fr) ++ rest)
  /\ (forall event,
        first_final evs = Some event ->
        (forall ps, content_parts event = Some ps ->
           final_response_text event = String.concat "" (part_texts ps))
        /\ (final_response_text event <> "" ->
            exists before,
              yielded s'
              = (before
                 ++ [PyDict [("role", PyStr "assistant");
                             ("content",
                              PyStr (final_response_text event))]])%list)).
Proof.
  intros evs s' Hone. subst s' evs.
  rewrite (get_response_from_agent_run message history s). simpl.
  assert (Hin : forall ev ps part,
            In ev (consumed (events (stream_of message s))) ->
            content_parts ev = Some ps -> In part ps ->
            forall m tail, In m (part_messages part) ->
            In m (yielded s
                  ++ flat_map event_messages
                       (consumed (events (stream_of message s)))
                  ++ tail)%list).
  { intros ev ps part Hi Hc Hp m tail Hm.
    apply in_or_app. right. apply in_or_app. left.
    apply in_flat_map. exists ev. split; [assumption|].
    unfold event_messages. rewrite Hc. apply in_flat_map. eauto. }
  split; [reflexivity|]. split; [reflexivity|]. split; [|split].
  - intros ev ps part fc Hi Hc Hp Hfc. split; [|eexists; reflexivity].
    eapply Hin; eauto. unfold part_messages. rewrite Hfc. now left.
  - intros ev ps part fr Hi Hc Hp Hfr. split; [|eexists; reflexivity].
    assert (Hfc : function_call part = None).
    { pose proof (one_field_each_part _ ev ps part Hone
                    (consumed_incl _ ev Hi) Hc Hp) as H1.
      unfold one_field in H1. rewrite Hfr in H1.
      destruct (function_call part); [discriminate|reflexivity]. }
    eapply Hin; eauto. unfold part_messages. rewrite Hfc, Hfr. now left.
  - intros event Hff. split.
    + intros ps Hc. unfold final_response_text. now rewrite Hc.
    + intros Hne. unfold interruption. rewrite Hff.
      unfold final_messages, truthy.
      destruct (final_response_text event =? "") eqn:E.
      * apply String.eqb_eq in E. contradiction.
      * simpl. eexists. rewrite ?app_nil_r, !app_assoc. reflexivity.
Qed.

(** C5.  [get_response_from_agent] never raises.  When the stream raises
    an exception before any final response, the generator has yielded the
    messages of the events delivered before it; the handler then prints
    the exception and its traceback, yields exactly one ["assistant"]
    dictionary with the fixed error notice, and the generator ends. *)
Theorem relay_reports_exceptions (message : string) (history : list PyVal)
    (s : Store) :
  let s' := snd (get_response_from_agent message history s) in
  fst (get_response_from_agent message history s) = Ok tt
  /\ forall e,
       stream_end (stream_of message s) = Some e ->
       none_final (events (stream_of message s)) ->
       yielded s'
       = (yielded s ++ flat_map event_messages (events (stream_of message s))
          ++ [PyDict [("role", PyStr "assistant");
                      ("content", PyStr error_notice)]])%list
       /\ console s'
          = (console s
             ++ [Stdout ("Error in get_response_from_agent (Type: "
                         ++ type_repr e ++ "): " ++ exc_str e);
                 Traceback e])%list.
Proof.
  intros s'. subst s'.
  rewrite (get_response_from_agent_run message history s). simpl.
  split; [reflexivity|].
  intros e Hend Hev. destruct (none_final_consumed _ Hev) as [Hc Hf].
  unfold interruption. rewrite Hc, Hf, Hend. split; reflexivity.
Qed.

End Relay.

(** * Further properties *)

Section SessionProperties.

Context {ext : Externals}.

(** ** before_model_callback *)

Lemma uuid_str_not_empty (u : N) : uuid_str u <> "".
Proof.
  unfold uuid_str. cbv zeta.
  destruct (substring 0 8 (uuid_hex u)); discriminate.
Qed.

Lemma before_model_callback_run (s : Store) :
  before_model_callback s
  = (Ok tt,
     if session_is_active (state s) then s
     else if Dict.contains "session_id" (state s)
     then with_state s (Dict.set "session_active" (PyBool true) (state s))
     else
       {| self := self s;
          state :=
            Dict.set "session_active" (PyBool true)
              (Dict.set "session_id"
                 (PyStr (uuid_str (fst (uuid4 (world s))))) (state s));
          console := console s; yielded := yielded s;
          world := snd (uuid4 (world s)) |}).
Proof.
  unfold before_model_callback, session_is_active, bind, get_state, getitem,
    Dict.contains, fresh_uuid_str, with_state.
  unfold bind, call, ret, state_setitem.
  destruct (Dict.get "session_active" (state s)) as [v|]; simpl;
    [destruct (truthy v); simpl|];
    destruct (Dict.get "session_id" (state s)); simpl;
    try destruct (uuid4 (world s)); reflexivity.
Qed.

Lemma before_model_callback_active_after (s : Store) :
  session_is_active (state (snd (before_model_callback s))) = true.
Proof.
  rewrite before_model_callback_run. simpl.
  destruct (session_is_active (state s)) eqn:Ea; [assumption|].
  destruct (Dict.contains "session_id" (state s)); simpl;
    unfold session_is_active; now rewrite get_set_same.
Qed.

(** X1.  [before_model_callback] never raises and leaves the session
    marked active.  When it finds the session not active it sets
    ["session_active"] to [True] and the state then has a ["session_id"]. *)
Theorem before_model_callback_activates (s : Store) :
  let s' := snd (before_model_callback s) in
  fst (before_model_callback s) = Ok tt
  /\ session_is_active (state s') = true
  /\ (session_is_active (state s) = false ->
      Dict.get "session_active" (state s') = Some (PyBool true)
      /\ Dict.contains "session_id" (state s') = true).
Proof.
  intros s'. subst s'.
  split; [now rewrite before_model_callback_run|].
  split; [apply before_model_callback_active_after|].
  rewrite before_model_callback_run. simpl. intros Ea. rewrite Ea.
  destruct (Dict.contains "session_id" (state s)) eqn:Ei; simpl;
    rewrite get_set_same; split; try reflexivity; unfold Dict.contains in *;
    rewrite get_set_other by discriminate.
  - assumption.
  - now rewrite get_set_same.
Qed.

(** X2.  [before_model_callback] writes nothing but ["session_id"] and
    ["session_active"]: a session id that is in the state is kept, every
    other key keeps its value, the agent, the console and what was yielded
    are untouched, and when the session is already active the whole store
    is left as it is (an active session without an id stays without). *)
Theorem before_model_callback_keeps (s : Store) :
  let s' := snd (before_model_callback s) in
  (forall v, Dict.get "session_id" (state s) = Some v ->
     Dict.get "session_id" (state s') = Some v)
  /\ (forall k, k <> "session_id" -> k <> "session_active" ->
        Dict.get k (state s') = Dict.get k (state s))
  /\ self s' = self s /\ console s' = console s /\ yielded s' = yielded s
  /\ (session_is_active (state s) = true -> s' = s).
Proof.
  intros s'. subst s'. rewrite before_model_callback_run. simpl.
  destruct (session_is_active (state s)) eqn:Ea; [repeat split; auto|].
  unfold Dict.contains.
  destruct (Dict.get "session_id" (state s)) as [i|] eqn:Ei; simpl;
    (split; [|split; [|repeat split; discriminate]]).
  - intros v Hv. rewrite get_set_other by discriminate. congruence.
  - intros k H1 H2. now rewrite get_set_other by congruence.
  - discriminate.
  - intros k H1 H2. now rewrite !get_set_other by congruence.
Qed.

(** X3.  [before_model_callback] is idempotent: run again on the store it
    leaves, it changes nothing (no second session id is drawn). *)
Theorem before_model_callback_idempotent (s : Store) :
  before_model_callback (snd (before_model_callback s))
  = (Ok tt, snd (before_model_callback s)).
Proof.
  rewrite (before_model_callback_run (snd (before_model_callback s))).
  now rewrite before_model_callback_active_after.
Qed.

End SessionProperties.

Section ActiveAgent.

Context {ext : Externals}.

(** ** The active agent, from send_message to the prompt *)

Lemma append_assoc (a b c : string) : (a ++ b) ++ c = a ++ (b ++ c).
Proof. induction a as [|ch a IH]; simpl; [reflexivity|now rewrite IH]. Qed.

(** The prompt shows the active agent on a line of its own. *)
Lemma root_instruction_shows_active_agent (s : Store) :
  exists before after,
    fst (root_instruction s)
    = Ok (before ++ "Active Agent: " ++ active_agent_text (state s) ++ after).
Proof.
  rewrite root_instruction_run. cbn [fst]. unfold trip_info.
  change (py_str (PyStr (active_agent_text (state s))))
    with (active_agent_text (state s)).
  exists (instruction_role ++ agents (self s)
          ++ instruction_context ++ fst (now_strftime (world s))
          ++ instruction_profile ++ user_profile_text (state s)
          ++ instruction_trip ++ "
        Destination: "
          ++ py_str (itinerary_field "destination" "Not determined" (state s))
          ++ "
        Start Date: "
          ++ py_str (itinerary_field "start_date" "Not set" (state s))
          ++ "
        End Date: "
          ++ py_str (itinerary_field "end_date" "Not set" (state s))
          ++ "
        "),
         ("
        " ++ instruction_rules).
  f_equal. repeat rewrite append_assoc. reflexivity.
Qed.

Lemma send_message_keeps_other_keys (agent_name task k : string) (s : Store) :
  k <> "active_agent" ->
  Dict.get k (state (snd (send_message agent_name task s)))
  = Dict.get k (state s).
Proof.
  intros Hk.
  destruct (Dict.contains agent_name (remote_agent_connections (self s)))
    eqn:E.
  - rewrite send_message_records_agent by exact E.
    apply get_set_other. congruence.
  - now rewrite send_message_unknown.
Qed.

(** X4.  Once [before_model_callback] has opened the session, a message
    sent to a known agent makes that agent the active one, whatever becomes
    of the message: [check_active_agent] then answers with its name and the
    prompt of [root_instruction] shows it.  (The session must have an id:
    it has one unless it was found active without.) *)
Theorem active_agent_is_reported (agent_name task : string) (s : Store) :
  Dict.contains agent_name (remote_agent_connections (self s)) = true ->
  Dict.contains "session_id" (state s) = true
  \/ session_is_active (state s) = false ->
  let s1 := snd (before_model_callback s) in
  let s2 := snd (send_message agent_name task s1) in
  check_active_agent s2 = (Ok [("active_agent", PyStr agent_name)], s2)
  /\ exists before after,
       fst (root_instruction s2)
       = Ok (before ++ "Active Agent: " ++ agent_name ++ after).
Proof.
  intros Hknown Hid s1 s2.
  assert (Hself : self s1 = self s) by apply before_model_callback_self.
  assert (Hact : session_is_active (state s1) = true)
    by apply before_model_callback_active_after.
  assert (Hsid : Dict.contains "session_id" (state s1) = true).
  { unfold s1. rewrite before_model_callback_run. simpl.
    destruct (session_is_active (state s)) eqn:Ea.
    - destruct Hid; congruence.
    - destruct (Dict.contains "session_id" (state s)) eqn:Ei; simpl;
        unfold Dict.contains in *; rewrite get_set_other by discriminate.
      + assumption.
      + now rewrite get_set_same. }
  assert (Htext : active_agent_text (state s2) = agent_name).
  { unfold active_agent_text, s2.
    rewrite (send_message_keeps_other_keys agent_name task "session_id" s1),
      (send_message_keeps_other_keys agent_name task "session_active" s1)
      by discriminate.
    rewrite send_message_records_agent by (rewrite Hself; exact Hknown).
    rewrite get_set_same.
    unfold Dict.contains in Hsid. unfold session_is_active in Hact.
    destruct (Dict.get "session_id" (state s1)); [|discriminate].
    destruct (Dict.get "session_active" (state s1)); [|discriminate].
    now rewrite Hact. }
  split.
  - rewrite check_active_agent_run. now rewrite Htext.
  - rewrite <- Htext. apply root_instruction_shows_active_agent.
Qed.

(** X5.  Without an open session the agent that [send_message] records is
    not reported: when the state has no ["session_id"], or the session is
    not marked active, a message to a known agent sets
    ["active_agent"], yet [check_active_agent] answers "None" and the
    prompt shows "Active Agent: None". *)
Theorem active_agent_needs_session (agent_name task : string) (s : Store) :
  Dict.contains agent_name (remote_agent_connections (self s)) = true ->
  Dict.contains "session_id" (state s) = false
  \/ session_is_active (state s) = false ->
  let s2 := snd (send_message agent_name task s) in
  Dict.get "active_agent" (state s2) = Some (PyStr agent_name)
  /\ check_active_agent s2 = (Ok [("active_agent", PyStr "None")], s2)
  /\ exists before after,
       fst (root_instruction s2) = Ok (before ++ "Active Agent: None" ++ after).
Proof.
  intros Hknown Hno s2.
  assert (Htext : active_agent_text (state s2) = "None").
  { unfold active_agent_text, s2.
    rewrite (send_message_keeps_other_keys agent_name task "session_id" s),
      (send_message_keeps_other_keys agent_name task "session_active" s)
      by discriminate.
    unfold Dict.contains, session_is_active in Hno.
    destruct (Dict.get "session_id" (state s)); [|reflexivity].
    destruct (Dict.get "session_active" (state s)) as [flag|];
      [|reflexivity].
    destruct Hno as [Hno|Hno]; [discriminate|]. rewrite Hno.
    now destruct (Dict.get "active_agent" _). }
  split; [|split].
  - unfold s2. rewrite send_message_records_agent by exact Hknown.
    apply get_set_same.
  - rewrite check_active_agent_run. now rewrite Htext.
  - destruct (root_instruction_shows_active_agent s2) as [b [a H]].
    rewrite Htext in H. exists b, a. exact H.
Qed.

End ActiveAgent.

Section Requests.

Context {ext : Externals}.

(** ** The request that send_message builds *)

Lemma truthy_uuid_str (u : N) : truthy (PyStr (uuid_str u)) = true.
Proof.
  simpl. destruct (uuid_str u =? "") eqn:E; [|reflexivity].
  apply String.eqb_eq in E. now apply uuid_str_not_empty in E.
Qed.

Lemma build_message_request_bad_metadata (task : string) (s : Store)
    (v : PyVal) :
  Dict.get "input_message_metadata" (state s) = Some v ->
  isinstance_dict v = None ->
  fst (build_message_request task s)
  = Raise (mkExc TypeError
             ("dict.update() argument after ** must be a mapping, not "
              ++ type_name v)).
Proof.
  intros Hv Hd.
  unfold build_message_request, bind, get_state, getitem, Dict.contains,
    fresh_uuid_str.
  unfold bind, call, ret, raise. rewrite Hv, Hd.
  destruct (Dict.get "task_id" (state s));
    destruct (Dict.get "context_id" (state s)); simpl;
    repeat match goal with
           | |- context [uuid4 ?w] => destruct (uuid4 w)
           end; reflexivity.
Qed.

Lemma build_message_request_console (task : string) :
  preserves console (build_message_request task).
Proof. unfold build_message_request. frame. Qed.

Lemma send_message_console_on_raise (agent_name task : string) (s : Store)
    (e : PyExc) :
  fst (send_message agent_name task s) = Raise e ->
  console (snd (send_message agent_name task s)) = console s.
Proof.
  destruct (Dict.contains agent_name (remote_agent_connections (self s)))
    eqn:Hk.
  - apply contains_get in Hk. destruct Hk as [client Hc].
    rewrite (send_message_known _ task _ _ Hc).
    pose proof (build_message_request_console task (activated agent_name s))
      as Hb.
    destruct (build_message_request task (activated agent_name s))
      as [[req|e'] s1]; simpl in Hb.
    + destruct (client_send_message client req (world s1))
        as [[resp|e'] w2].
      * rewrite read_response_run. discriminate.
      * intros _. exact Hb.
    + intros _. exact Hb.
  - now rewrite send_message_unknown.
Qed.

(** X6.  For a known agent, when the state holds an
    ["input_message_metadata"] that is no dictionary, [send_message]
    raises a [TypeError] (that of the double-star unpacking) whatever the
    libraries do: the remote client is never reached, nothing is printed,
    and the state it leaves names the agent as active. *)
Theorem send_message_rejects_bad_metadata
    (agent_name task : string) (v : PyVal) (s : Store) :
  Dict.contains agent_name (remote_agent_connections (self s)) = true ->
  Dict.get "input_message_metadata" (state s) = Some v ->
  isinstance_dict v = None ->
  (exists e, fst (send_message agent_name task s) = Raise e
             /\ exc_class e = TypeError)
  /\ state (snd (send_message agent_name task s))
     = Dict.set "active_agent" (PyStr agent_name) (state s)
  /\ console (snd (send_message agent_name task s)) = console s.
Proof.
  intros Hk Hv Hd.
  assert (Hr : fst (send_message agent_name task s)
               = Raise (mkExc TypeError
                          ("dict.update() argument after ** must be a mapping, not "
                           ++ type_name v))).
  { apply contains_get in Hk. destruct Hk as [client Hc].
    rewrite (send_message_known _ task _ _ Hc).
    pose proof (build_message_request_bad_metadata task
                  (activated agent_name s) v) as Hb.
    simpl in Hb. rewrite get_set_other in Hb by discriminate.
    specialize (Hb Hv Hd).
    destruct (build_message_request task (activated agent_name s))
      as [[req|e] s1]; simpl in Hb; [discriminate|].
    simpl. congruence. }
  split; [|split].
  - eexists. split; [exact Hr|reflexivity].
  - now apply send_message_records_agent.
  - apply (send_message_console_on_raise agent_name task s _ Hr).
Qed.

(** Splits [build_message_request] along what the state holds and which
    identifiers are truthy, drawing the UUIDs on the way. *)
Ltac split_request :=
  unfold build_message_request, bind, get_state, getitem, Dict.contains,
    fresh_uuid_str, lift;
  unfold bind, call, ret, raise;
  repeat match goal with
         | |- context [match Dict.get ?k ?d with _ => _ end] =>
             let E := fresh "E" in destruct (Dict.get k d) eqn:E
         | |- context [uuid4 ?w] =>
             let u := fresh "u" in let w' := fresh "w" in
             destruct (uuid4 w) as [u w']
         | |- context [truthy (PyStr (uuid_str ?u))] =>
             rewrite (truthy_uuid_str u)
         | |- context [match isinstance_dict ?v with _ => _ end] =>
             is_var v; destruct v
         | |- context [truthy (PyStr "")] =>
             change (truthy (PyStr "")) with false
         | |- context [if truthy ?v then _ else _] =>
             let T := fresh "T" in destruct (truthy v) eqn:T
         | |- context [if negb (truthy ?v) then _ else _] =>
             let T := fresh "T" in destruct (truthy v) eqn:T
         | _ => progress cbn [isinstance_dict negb fst snd]
         end.

(** X7.  Unless the state holds an ["input_message_metadata"] that is no
    dictionary, the request of [send_message] is built, without touching
    the agent, the state or the console, from a payload with the one key
    ["message"]: role ["user"], exactly one part, of type ["text"] and
    carrying the task, and a ["messageId"] that is never falsy and is also
    the id of the request.  The message has the ["task_id"] of the state
    as ["taskId"] when it is truthy, no ["taskId"] when it is falsy, and a
    new UUID when the state has none; likewise for ["contextId"]. *)
Theorem send_message_payload_shape (task : string) (s : Store) :
  (forall v, Dict.get "input_message_metadata" (state s) = Some v ->
     isinstance_dict v <> None) ->
  exists message message_id s1,
    build_message_request task s
    = (match model_validate (PyDict [("message", PyDict message)]) with
       | Ok params => new_SendMessageRequest message_id params
       | Raise e => Raise e
       end, s1)
    /\ self s1 = self s /\ state s1 = state s /\ console s1 = console s
    /\ Dict.get "role" message = Some (PyStr "user")
    /\ Dict.get "parts" message
       = Some (PyList [PyDict [("type", PyStr "text"); ("text", PyStr task)]])
    /\ Dict.get "messageId" message = Some message_id
    /\ truthy message_id = true
    /\ (forall v, Dict.get "task_id" (state s) = Some v ->
          Dict.get "taskId" message = if truthy v then Some v else None)
    /\ (Dict.get "task_id" (state s) = None ->
        exists u, Dict.get "taskId" message = Some (PyStr (uuid_str u)))
    /\ (forall v, Dict.get "context_id" (state s) = Some v ->
          Dict.get "contextId" message = if truthy v then Some v else None)
    /\ (Dict.get "context_id" (state s) = None ->
        exists u, Dict.get "contextId" message = Some (PyStr (uuid_str u))).
Proof.
  intros Hmeta.
  assert (Hm : forall v, Dict.get "input_message_metadata" (state s) = Some v ->
                         exists d, v = PyDict d).
  { intros v Hv. specialize (Hmeta v Hv). destruct v; simpl in Hmeta;
      try congruence. eauto. }
  clear Hmeta. split_request.
  all: try (destruct (Hm _ eq_refl) as [? ?]; discriminate).
  all: cbn -[uuid_str];
    match goal with
    | |- context [model_validate (PyDict [("message", PyDict ?m)])] =>
        exists m
    end;
    match goal with
    | |- context [new_SendMessageRequest ?i] => exists i
    end;
    eexists;
    (split;
     [ match goal with
       | |- context [model_validate ?p] => destruct (model_validate p)
       end; reflexivity
     | ]);
    cbn -[uuid_str];
    repeat split; intros; try reflexivity; try discriminate;
    try assumption; try apply truthy_uuid_str;
    repeat match goal with
           | H : Some _ = Some _ |- _ => injection H as <-
           | H : truthy ?v = _ |- context [truthy ?v] => rewrite H
           end;
    try reflexivity; try discriminate; try (eexists; reflexivity).
Qed.

(** X8.  The identifiers that the state provides are reused: with a
    truthy ["task_id"], a truthy ["context_id"] and a metadata dictionary
    with a truthy ["message_id"], the request is built from exactly these
    values, no UUID is drawn and the store is left as it was. *)
Theorem send_message_reuses_identifiers (task : string) (s : Store)
    (t c m : PyVal) (d : list (string * PyVal)) :
  Dict.get "task_id" (state s) = Some t -> truthy t = true ->
  Dict.get "context_id" (state s) = Some c -> truthy c = true ->
  Dict.get "input_message_metadata" (state s) = Some (PyDict d) ->
  Dict.get "message_id" d = Some m -> truthy m = true ->
  build_message_request task s
  = (match
       model_validate
         (PyDict
            [("message",
              PyDict [("role", PyStr "user");
                      ("parts",
                       PyList [PyDict [("type", PyStr "text");
                                       ("text", PyStr task)]]);
                      ("messageId", m);
                      ("taskId", t);
                      ("contextId", c)])])
     with
     | Ok params => new_SendMessageRequest m params
     | Raise e => Raise e
     end, s).
Proof.
  intros Ht Tt Hc Tc Hd Hm Tm.
  unfold build_message_request, bind, get_state, getitem, Dict.contains, lift.
  unfold ret. rewrite Ht, Hc, Hd. cbn [isinstance_dict]. rewrite Hm.
  cbn [negb]. rewrite Tm. cbn [negb]. rewrite Tt, Tc. simpl.
  destruct (model_validate _); reflexivity.
Qed.

(** X9.  What [send_message] prints.  When it raises it has printed
    nothing.  When the remote client returns a response it prints the
    response, and then one line that says why no task is returned when the
    response is no success response or its result is no task. *)
Theorem send_message_log (agent_name task : string) (s : Store) :
  (forall e, fst (send_message agent_name task s) = Raise e ->
     console (snd (send_message agent_name task s)) = console s)
  /\ (forall client req resp s1,
        Dict.get agent_name (remote_agent_connections (self s)) = Some client ->
        build_message_request task (activated agent_name s) = (Ok req, s1) ->
        fst (client_send_message client req (world s1)) = Ok resp ->
        console (snd (send_message agent_name task s))
        = (console s
           ++ Stdout ("send_response " ++ model_dump_json resp)
              :: match root resp with
                 | SendMessageSuccessResponse (ResultTask _) => []
                 | SendMessageSuccessResponse (ResultMessage _) =>
                     [Stdout "received non-task response. Aborting get task "]
                 | JSONRPCErrorResponse _ =>
                     [Stdout
                        "received non-success response. Aborting get task "]
                 end)%list).
Proof.
  split.
  - intros e. apply send_message_console_on_raise.
  - intros client req resp s1 Hc Hb Hr.
    rewrite (send_message_known _ task _ _ Hc), Hb.
    pose proof (build_message_request_console task (activated agent_name s))
      as Hcon.
    rewrite Hb in Hcon. simpl in Hcon.
    destruct (client_send_message client req (world s1)) as [[resp'|e'] w2];
      simpl in Hr; [|discriminate].
    injection Hr as ->. unfold read_response, bind, print, emit, ret.
    simpl. rewrite Hcon.
    destruct (root resp) as [[t|m]|err]; simpl;
      rewrite <- ?app_assoc; reflexivity.
Qed.

End Requests.

Section Registry.

Context {ext : Externals}.

(** ** The two dictionaries and the listing, over every reachable store *)

Lemma async_init_components_run (addresses : list string) (s : Store) :
  let a := fold_left register (resolutions addresses (world s)) (self s) in
  _async_init_components addresses s
  = (Ok tt,
     with_agent_console_world s
       (set_agents (listing (Dict.values (cards a))) a)
       (console s ++ error_lines (resolutions addresses (world s))
        ++ [Stdout ("agent_info: "
                    ++ repr (PyList (map PyStr
                         (map card_info (Dict.values (cards a))))))])%list
       (world_after addresses (world s))).
Proof.
  intros a. unfold _async_init_components, bind.
  rewrite for_each_resolve_run. rewrite populate_agents_run. simpl. fold a.
  unfold with_agent_console_world. simpl. rewrite <- app_assoc.
  unfold listing. destruct (Dict.values (cards a)); reflexivity.
Qed.

Lemma register_matched (a : TravelHostAgent)
    (res : string * Result AgentCard.t) :
  matched a -> matched (register a res).
Proof.
  intros H k. destruct res as [address [card|e]]; unfold register; simpl;
    [|apply H].
  destruct (string_dec (AgentCard.name card) k) as [E|E].
  - subst k. rewrite !get_set_same. auto.
  - rewrite !get_set_other by assumption. apply H.
Qed.

Lemma fold_register_matched (rs : list (string * Result AgentCard.t))
    (a : TravelHostAgent) :
  matched a -> matched (fold_left register rs a).
Proof.
  revert a. induction rs as [|res rs IH]; intros a H; simpl; [assumption|].
  apply IH. now apply register_matched.
Qed.

Lemma run_self (op : Operation) (s : Store) :
  (exists addresses, self (run op s)
     = set_agents
         (listing
            (Dict.values
               (cards (fold_left register (resolutions addresses (world s))
                         (self s)))))
         (fold_left register (resolutions addresses (world s)) (self s)))
  \/ (exists addresses cb, self (run op s)
        = set_agents
            (listing
               (Dict.values
                  (cards (fold_left register
                            (resolutions addresses (world s))
                            (__init__ cb)))))
            (fold_left register (resolutions addresses (world s))
               (__init__ cb)))
  \/ self (run op s) = self s.
Proof.
  destruct op; simpl.
  - left. exists remote_agent_addresses.
    now rewrite async_init_components_run.
  - right. left. exists remote_agent_addresses, task_callback0.
    destruct (create_run remote_agent_addresses task_callback0 s) as [l E].
    now rewrite E.
  - right. right. reflexivity.
  - right. right. apply root_instruction_self.
  - right. right. apply check_active_agent_frame.
  - right. right. apply before_model_callback_self.
  - right. right. apply send_message_self.
Qed.

(** X10.  In every store the program can reach, each key of [self.cards]
    is the name of the card it is mapped to, and
    [self.remote_agent_connections] maps it to a connection built from that
    very card; conversely the card of every connection is the card stored
    under its key. *)
Theorem connections_match_cards (s : Store) :
  reachable s ->
  forall k,
    (forall card, Dict.get k (cards (self s)) = Some card ->
       AgentCard.name card = k
       /\ exists address,
            Dict.get k (remote_agent_connections (self s))
            = Some (RemoteAgentConnections.mk card address))
    /\ (forall conn,
          Dict.get k (remote_agent_connections (self s)) = Some conn ->
          Dict.get k (cards (self s))
          = Some (RemoteAgentConnections.card conn)).
Proof.
  intros Hr.
  assert (Hm : matched (self s)).
  { induction Hr as [cb st w|op s Hr IH].
    - intros k. reflexivity.
    - destruct (run_self op s) as [[l E]|[[l [cb E]]|E]]; rewrite E.
      + apply (fold_register_matched _ _ IH).
      + apply fold_register_matched. intros k. reflexivity.
      + exact IH. }
  intros k. specialize (Hm k).
  destruct (Dict.get k (cards (self s))) as [card|];
    destruct (Dict.get k (remote_agent_connections (self s))) as [conn|];
    try contradiction.
  - destruct Hm as [Hn Hc]. split.
    + intros c E. injection E as <-. split; [assumption|].
      exists (RemoteAgentConnections.agent_url conn).
      destruct conn; simpl in *. now subst.
    + intros c E. injection E as <-. now rewrite Hc.
  - split; intros; discriminate.
Qed.

(** X11.  [self.agents] is never out of step with [self.cards]: in every
    store the program can reach, either the agent has not been initialized
    (no text, no card, no connection) or [self.agents] is the listing of
    the cards that [self.cards] holds. *)
Theorem agents_follow_cards (s : Store) :
  reachable s ->
  (agents (self s) = "" /\ cards (self s) = []
   /\ remote_agent_connections (self s) = [])
  \/ agents (self s) = listing (Dict.values (cards (self s))).
Proof.
  induction 1 as [cb st w|op s Hr IH].
  - left. repeat split.
  - destruct (run_self op s) as [[l E]|[[l [cb E]]|E]]; rewrite E.
    + right. reflexivity.
    + right. reflexivity.
    + exact IH.
Qed.

End Registry.

Section Growth.

Context {ext : Externals}.

(** ** What an initialization adds *)

Lemma keys_set_grows {V} (k : string) (v : V) (d : Dict.t V) :
  exists extra,
    Dict.keys (Dict.set k v d) = (Dict.keys d ++ extra)%list
    /\ length extra <= 1.
Proof.
  induction d as [|[k' v'] d [extra [IH Hl]]]; simpl.
  - exists [k]. auto.
  - destruct (String.eqb k k') eqn:E.
    + apply String.eqb_eq in E. subst. exists []. simpl.
      rewrite app_nil_r. split; [reflexivity|lia].
    + exists extra. simpl. rewrite IH. split; [reflexivity|assumption].
Qed.

Lemma set_keeps_nodup {V} (k : string) (v : V) (d : Dict.t V) :
  NoDup (Dict.keys d) -> NoDup (Dict.keys (Dict.set k v d)).
Proof.
  induction d as [|[k' v'] d IH]; simpl; intros H.
  - constructor; [intros []|constructor].
  - inversion H as [|x l Hn Hd]; subst.
    destruct (String.eqb k k') eqn:E.
    + apply String.eqb_eq in E. subst. simpl. now constructor.
    + simpl. constructor; [|auto].
      intros Hin. apply Hn.
      assert (Hk : forall j, In j (Dict.keys (Dict.set k v d)) ->
                             j = k \/ In j (Dict.keys d)).
      { clear. induction d as [|[k0 v0] d IHd]; simpl; intros j Hj.
        - destruct Hj as [<-|[]]. now left.
        - destruct (String.eqb k k0) eqn:E0; simpl in Hj.
          + apply String.eqb_eq in E0. subst.
            destruct Hj; [left|right; right]; auto.
          + destruct Hj as [<-|Hj]; [right; now left|].
            destruct (IHd j Hj); [now left|right; now right]. }
      destruct (Hk k' Hin) as [->|Hi]; [|assumption].
      rewrite String.eqb_refl in E. discriminate.
Qed.

Lemma fold_register_grows (rs : list (string * Result AgentCard.t))
    (a : TravelHostAgent) :
  exists extra,
    Dict.keys (cards (fold_left register rs a))
    = (Dict.keys (cards a) ++ extra)%list
    /\ length extra <= length (resolved_cards rs).
Proof.
  revert a. induction rs as [|[address [card|e]] rs IH]; intros a; simpl.
  - exists []. simpl. now rewrite app_nil_r.
  - destruct (IH (register a (address, Ok card))) as [extra [E Hl]].
    unfold register in E at 2. simpl in E.
    destruct (keys_set_grows (AgentCard.name card) card (cards a))
      as [one [E1 H1]].
    rewrite E1, <- app_assoc in E.
    exists (one ++ extra)%list. split; [exact E|].
    rewrite length_app. lia.
  - destruct (IH (register a (address, Raise e))) as [extra [E Hl]].
    exists extra. auto.
Qed.

Lemma fold_register_nodup (rs : list (string * Result AgentCard.t))
    (a : TravelHostAgent) :
  NoDup (Dict.keys (cards a)) ->
  NoDup (Dict.keys (cards (fold_left register rs a))).
Proof.
  revert a. induction rs as [|[address [card|e]] rs IH]; intros a H; simpl;
    [assumption| |auto].
  apply IH. unfold register. simpl. now apply set_keeps_nodup.
Qed.

Lemma resolved_cards_length (addresses : list string) (w : World) :
  length (resolved_cards (resolutions addresses w)) <= length addresses.
Proof.
  revert w. induction addresses as [|address rest IH]; intros w; simpl;
    [lia|].
  specialize (IH (snd (get_agent_card address w))).
  destruct (fst (get_agent_card address w)); simpl; lia.
Qed.

(** X12.  An initialization only adds: run on any agent,
    [_async_init_components] keeps every name that [self.cards] holds, in
    its place, and appends the new names after them, at most one per
    address. *)
Theorem async_init_components_appends (addresses : list string) (s : Store) :
  exists extra,
    Dict.keys (cards (self (snd (_async_init_components addresses s))))
    = (Dict.keys (cards (self s)) ++ extra)%list
    /\ length extra <= length addresses.
Proof.
  rewrite async_init_components_run. simpl.
  destruct (fold_register_grows (resolutions addresses (world s)) (self s))
    as [extra [E Hl]].
  exists extra. split; [exact E|].
  pose proof (resolved_cards_length addresses (world s)). lia.
Qed.

(** X13.  The agent that [create] returns holds at most one card per
    address that answered with one, hence at most as many as there are
    addresses, and no name twice. *)
Theorem create_bounds_cards (addresses : list string)
    (cb : option TaskUpdateCallback) (s : Store) :
  let a := self (snd (create addresses cb s)) in
  length (Dict.keys (cards a))
  <= length (resolved_cards (resolutions addresses (world s)))
  /\ length (resolved_cards (resolutions addresses (world s)))
     <= length addresses
  /\ NoDup (Dict.keys (cards a)).
Proof.
  intros a. subst a. destruct (create_run addresses cb s) as [line E].
  rewrite E. simpl.
  destruct (fold_register_grows (resolutions addresses (world s))
              (__init__ cb)) as [extra [Ek Hl]].
  split; [|split].
  - rewrite Ek. simpl. exact Hl.
  - apply resolved_cards_length.
  - apply fold_register_nodup. constructor.
Qed.

(** X14.  What [create] prints: one line for each address whose resolution
    raised, in the order of the addresses, then the line "agent_info:"
    with the list of the JSON objects of the cards held; nothing else. *)
Theorem create_log (addresses : list string)
    (cb : option TaskUpdateCallback) (s : Store) :
  let a := self (snd (create addresses cb s)) in
  console (snd (create addresses cb s))
  = (console s ++ error_lines (resolutions addresses (world s))
     ++ [Stdout ("agent_info: "
                 ++ repr (PyList (map PyStr
                      (map card_info (Dict.values (cards a))))))])%list
  /\ length (error_lines (resolutions addresses (world s)))
     + length (resolved_cards (resolutions addresses (world s)))
     = length addresses.
Proof.
  intros a. subst a. split.
  - unfold create, bind, put_self, get_self. cbn [fst snd].
    rewrite async_init_components_run. reflexivity.
  - generalize (world s). induction addresses as [|address rest IH];
      intros w; simpl; [reflexivity|].
    specialize (IH (snd (get_agent_card address w))).
    unfold error_lines, resolved_cards in *. simpl.
    destruct (fst (get_agent_card address w)); simpl; lia.
Qed.

End Growth.

Section Lines.

Context {ext : Externals}.

(** ** One line per agent in the listing *)

Lemma newlines_app (a b : string) :
  newlines (a ++ b) = newlines a + newlines b.
Proof.
  induction a as [|c a IH]; simpl; [reflexivity|]. rewrite IH. lia.
Qed.

Lemma newlines_hex_digit (n : N) : newlines (String (hex_digit n) "") = 0.
Proof.
  destruct n as [|p]; [reflexivity|].
  do 4 (try destruct p as [p|p|]); reflexivity.
Qed.

Lemma newlines_hex_pad (digits : nat) (n : N) :
  newlines (hex_pad digits n) = 0.
Proof.
  revert n. induction digits as [|d IH]; intros n; simpl; [reflexivity|].
  rewrite newlines_app, IH. apply newlines_hex_digit.
Qed.

Lemma newlines_u_escape (n : N) : newlines (u_escape n) = 0.
Proof.
  unfold u_escape. rewrite !newlines_app, newlines_hex_pad. reflexivity.
Qed.

(** No escape sequence of a JSON string holds a raw newline. *)
Lemma newlines_json_escape_char (n : N) : newlines (json_escape_char n) = 0.
Proof.
  destruct n as [|p]; [reflexivity|].
  do 7 (try destruct p as [p|p|]);
    try reflexivity;
    unfold json_escape_char;
    match goal with
    | |- context [(?a <? 65536)%N] =>
        cbn -[N.ltb N.sub N.lor N.land N.shiftr u_escape newlines];
        destruct (a <? 65536)%N;
        rewrite ?newlines_app, ?newlines_u_escape; reflexivity
    end.
Qed.

Lemma newlines_concat (parts : list string) :
  (forall x, In x parts -> newlines x = 0) ->
  newlines (String.concat "" parts) = 0.
Proof.
  induction parts as [|x [|y rest] IH]; intros H; simpl.
  - reflexivity.
  - apply H. now left.
  - rewrite newlines_app. rewrite (H x) by now left. simpl.
    apply IH. intros z Hz. apply H. now right.
Qed.

Lemma newlines_json_string (s : string) : newlines (json_string s) = 0.
Proof.
  unfold json_string. rewrite !newlines_app. simpl.
  rewrite newlines_concat; [reflexivity|].
  intros x Hx. apply in_map_iff in Hx. destruct Hx as [n [<- _]].
  apply newlines_json_escape_char.
Qed.

Lemma newlines_card_info (card : AgentCard.t) : newlines (card_info card) = 0.
Proof.
  unfold card_info, json_dumps. cbn [json_encode map join fst snd].
  rewrite !newlines_app, !newlines_json_string. reflexivity.
Qed.

Lemma newlines_join (lines : list string) :
  (forall x, In x lines -> newlines x = 0) ->
  newlines (join newline lines) = length lines - 1.
Proof.
  induction lines as [|x [|y rest] IH]; intros H.
  - reflexivity.
  - simpl. rewrite (H x) by now left. reflexivity.
  - change (join newline (x :: y :: rest))
      with (x ++ newline ++ join newline (y :: rest)).
    rewrite !newlines_app, (H x) by now left.
    rewrite IH by (intros z Hz; apply H; now right).
    simpl. lia.
Qed.

(** X15.  Each agent takes exactly one line of [self.agents]: whatever the
    names and the descriptions of the cards (newlines in them are escaped
    by the JSON encoding), after [create] the text has one newline less
    than [self.cards] has cards when it has any, and none when it has
    no card. *)
Theorem agents_has_one_line_per_card (addresses : list string)
    (cb : option TaskUpdateCallback) (s : Store) :
  let a := self (snd (create addresses cb s)) in
  newlines (agents a) = length (Dict.values (cards a)) - 1
  /\ forall card, newlines (card_info card) = 0.
Proof.
  intros a. subst a. split; [|apply newlines_card_info].
  destruct (create_run addresses cb s) as [line E]. rewrite E. simpl.
  unfold listing.
  destruct (Dict.values
              (cards (fold_left register (resolutions addresses (world s))
                        (__init__ cb)))) as [|c cs] eqn:Ev.
  - reflexivity.
  - rewrite newlines_join.
    + now rewrite length_map.
    + intros x Hx. apply in_map_iff in Hx. destruct Hx as [card [<- _]].
      apply newlines_card_info.
Qed.

End Lines.

Section FinalResponses.

Context {ext : Externals}.

(** ** The end of the relay *)

Lemma consumed_until_final (pre post : list Event) (event : Event) :
  none_final pre -> is_final_response event = true ->
  consumed (pre ++ event :: post) = (pre ++ [event])%list
  /\ first_final (pre ++ event :: post) = Some event.
Proof.
  intros Hpre Hfin. induction Hpre as [|ev pre Hev Hpre [IH1 IH2]]; simpl.
  - now rewrite Hfin.
  - now rewrite Hev, IH1, IH2.
Qed.

Lemma get_response_from_agent_until_final (message : string)
    (history : list PyVal) (s : Store) (pre post : list Event)
    (event : Event) :
  events (stream_of message s) = (pre ++ event :: post)%list ->
  none_final pre -> is_final_response event = true ->
  get_response_from_agent message history s
  = (Ok tt,
     {| self := self s; state := state s; console := console s;
        yielded :=
          (yielded s ++ flat_map event_messages pre ++ event_messages event
           ++ final_messages event)%list;
        world := snd (run_async USER_ID SESSION_ID (user_content message)
                        (world s)) |}).
Proof.
  intros Hev Hpre Hfin. rewrite get_response_from_agent_run.
  unfold interruption. rewrite Hev.
  destruct (consumed_until_final pre post event Hpre Hfin) as [Hc Hf].
  rewrite Hc, Hf. rewrite flat_map_app. simpl.
  now rewrite !app_nil_r, <- !app_assoc.
Qed.

(** X16.  A final response without parts that escalates is relayed as one
    message, "Agent escalated: " followed by the error message of the
    event, or by "No specific message." when the event has none or an
    empty one; it is the last message yielded. *)
Theorem relay_reports_escalation (message : string) (history : list PyVal)
    (s : Store) (pre post : list Event) (event : Event)
    (acts : EventActions) :
  events (stream_of message s) = (pre ++ event :: post)%list ->
  none_final pre -> is_final_response event = true ->
  content_parts event = None ->
  actions event = Some acts -> escalate acts = Some true ->
  yielded (snd (get_response_from_agent message history s))
  = (yielded s ++ flat_map event_messages pre
     ++ [PyDict
           [("role", PyStr "assistant");
            ("content",
             PyStr ("Agent escalated: "
                    ++ match error_message event with
                       | Some "" | None => "No specific message."
                       | Some m => m
                       end))]])%list.
Proof.
  intros Hev Hpre Hfin Hc Ha He.
  rewrite (get_response_from_agent_until_final message history s pre post
             event Hev Hpre Hfin). simpl.
  unfold event_messages, final_messages, final_response_text.
  rewrite Hc, Ha, He. simpl.
  destruct (error_message event) as [[|c m]|]; reflexivity.
Qed.

(** X17.  A final response yields no message of its own when it has parts
    and none of them carries a text that is not empty (an escalation is
    then not reported either), or when it has no parts and does not
    escalate: the generator ends after the messages of the parts. *)
Theorem relay_ends_silently (message : string) (history : list PyVal)
    (s : Store) (pre post : list Event) (event : Event) :
  events (stream_of message s) = (pre ++ event :: post)%list ->
  none_final pre -> is_final_response event = true ->
  (exists ps, content_parts event = Some ps
              /\ forall p, In p ps -> text p = None \/ text p = Some "")
  \/ (content_parts event = None
      /\ forall acts, actions event = Some acts -> escalate acts <> Some true) ->
  get_response_from_agent message history s
  = (Ok tt,
     {| self := self s; state := state s; console := console s;
        yielded :=
          (yielded s ++ flat_map event_messages pre
           ++ event_messages event)%list;
        world := snd (run_async USER_ID SESSION_ID (user_content message)
                        (world s)) |}).
Proof.
  intros Hev Hpre Hfin Hquiet.
  rewrite (get_response_from_agent_until_final message history s pre post
             event Hev Hpre Hfin).
  assert (Ht : final_response_text event = "").
  { unfold final_response_text.
    destruct Hquiet as [[ps [Hc Hp]]|[Hc Ha]]; rewrite Hc.
    - assert (Hn : part_texts ps = []).
      { clear Hc. induction ps as [|p ps IH]; [reflexivity|].
        unfold part_texts in *. simpl.
        destruct (Hp p (or_introl eq_refl)) as [E|E]; rewrite E; simpl;
          apply IH; intros q Hq; apply Hp; now right. }
      now rewrite Hn.
    - destruct (actions event) as [acts|]; [|reflexivity].
      specialize (Ha acts eq_refl).
      destruct (escalate acts) as [[|]|]; try reflexivity. congruence. }
  unfold final_messages. rewrite Ht. simpl. now rewrite app_nil_r.
Qed.

(** X18.  Nothing after the first final response matters: two streams
    that share their events up to and including a final response are
    relayed in the same way, whatever events follow and however the
    streams end, an exception included. *)
Theorem relay_ignores_what_follows (pre post post' : list Event)
    (event : Event) (ending ending' : option PyExc) (s : Store) :
  none_final pre -> is_final_response event = true ->
  relay_events (pre ++ event :: post) ending s
  = relay_events (pre ++ event :: post') ending' s
  /\ fst (relay_events (pre ++ event :: post) ending s) = Ok tt.
Proof.
  intros Hpre Hfin. rewrite !relay_events_run. unfold interruption. simpl.
  destruct (consumed_until_final pre post event Hpre Hfin) as [Hc Hf].
  destruct (consumed_until_final pre post' event Hpre Hfin) as [Hc' Hf'].
  rewrite Hc, Hf, Hc', Hf'. split; reflexivity.
Qed.

End FinalResponses.

Section ConversionProperties.

Context {ext : Externals}.

Variable A2APart : Type.
Variable read_type : A2APart -> Result PyVal.
Variable read_text : A2APart -> Result PyVal.

(** ** convert_part and convert_parts *)

Lemma convert_parts_raised (part_list : list A2APart) (tc : Dict.t PyVal)
    (e : PyExc) :
  fold_left
    (fun acc p =>
       match acc with
       | Raise e => Raise e
       | Ok rval =>
           match convert_part read_type read_text p tc with
           | Ok v => Ok (rval ++ [v])%list
           | Raise e => Raise e
           end
       end) part_list (Raise e)
  = Raise e.
Proof. induction part_list as [|p rest IH]; simpl; auto. Qed.

Lemma convert_parts_from (part_list : list A2APart) (tc : Dict.t PyVal)
    (rval : list PyVal) :
  fold_left
    (fun acc p =>
       match acc with
       | Raise e => Raise e
       | Ok rval =>
           match convert_part read_type read_text p tc with
           | Ok v => Ok (rval ++ [v])%list
           | Raise e => Raise e
           end
       end) part_list (Ok rval)
  = match convert_parts read_type read_text part_list tc with
    | Ok vs => Ok (rval ++ vs)%list
    | Raise e => Raise e
    end.
Proof.
  revert rval. induction part_list as [|p rest IH]; intros rval.
  - simpl. now rewrite app_nil_r.
  - unfold convert_parts. simpl.
    destruct (convert_part read_type read_text p tc) as [v|e].
    + rewrite (IH (rval ++ [v])%list), (IH [v]).
      destruct (convert_parts read_type read_text rest tc); [|reflexivity].
      now rewrite <- app_assoc.
    + now rewrite !convert_parts_raised.
Qed.

(** The loop, one part at a time. *)
Lemma convert_parts_cons (p : A2APart) (rest : list A2APart)
    (tc : Dict.t PyVal) :
  convert_parts read_type read_text (p :: rest) tc
  = match convert_part read_type read_text p tc with
    | Raise e => Raise e
    | Ok v =>
        match convert_parts read_type read_text rest tc with
        | Ok vs => Ok (v :: vs)
        | Raise e => Raise e
        end
    end.
Proof.
  unfold convert_parts at 1. simpl.
  destruct (convert_part read_type read_text p tc) as [v|e].
  - now rewrite convert_parts_from.
  - apply convert_parts_raised.
Qed.

(** What the loop returns and what it raises. *)
Lemma convert_parts_run (part_list : list A2APart) (tc : Dict.t PyVal) :
  (forall vs,
     convert_parts read_type read_text part_list tc = Ok vs
     <-> Forall2 (fun p v => convert_part read_type read_text p tc = Ok v)
           part_list vs)
  /\ (forall e,
        convert_parts read_type read_text part_list tc = Raise e
        <-> exists pre p post,
              part_list = (pre ++ p :: post)%list
              /\ Forall (fun q => exists v,
                            convert_part read_type read_text q tc = Ok v) pre
              /\ convert_part read_type read_text p tc = Raise e).
Proof.
  induction part_list as [|p rest [IHok IHraise]].
  - split.
    + intros vs. split.
      * intros E. injection E as <-. constructor.
      * intros H. inversion H. reflexivity.
    + intros e. split; [discriminate|].
      intros [pre [q [post [E _]]]]. now destruct pre.
  - split.
    + intros vs. rewrite convert_parts_cons. split.
      * destruct (convert_part read_type read_text p tc) as [v|e] eqn:Ep;
          [|discriminate].
        destruct (convert_parts read_type read_text rest tc) as [ws|e] eqn:Er;
          [|discriminate].
        intros E. injection E as <-. constructor; [assumption|].
        now apply IHok.
      * intros H. inversion H as [|p' v rest' ws Hp Hrest]; subst.
        rewrite Hp. apply IHok in Hrest. now rewrite Hrest.
    + intros e. rewrite convert_parts_cons. split.
      * destruct (convert_part read_type read_text p tc) as [v|e'] eqn:Ep.
        -- destruct (convert_parts read_type read_text rest tc) as [ws|e']
             eqn:Er; [discriminate|].
           intros E. injection E as ->.
           destruct (proj1 (IHraise e) eq_refl)
             as [pre [q [post [E [Hpre Hq]]]]].
           exists (p :: pre), q, post. subst rest. split; [reflexivity|].
           split; [|assumption]. constructor; eauto.
        -- intros E. injection E as ->. exists [], p, rest. auto.
      * intros [pre [q [post [E [Hpre Hq]]]]].
        destruct pre as [|p' pre]; simpl in E; injection E as -> ->.
        -- now rewrite Hq.
        -- inversion Hpre as [|x l [v Hv] Hrest]; subst. rewrite Hv.
           assert (Hr : convert_parts read_type read_text
                          (pre ++ q :: post) tc = Raise e).
           { apply IHraise. exists pre, q, post. auto. }
           now rewrite Hr.
Qed.

(** X20.  [convert_parts] converts part by part and in order, up to the
    first part whose conversion raises.  It returns a list exactly when
    every part is converted, and the list then holds the conversion of
    each part, in the order of the parts; it raises an exception exactly
    when that exception is raised by the conversion of a part all of whose
    predecessors are converted.  In particular, when reading the [type]
    of the first part raises, as it does for a part that has no such
    attribute, [convert_parts] raises that exception. *)
Theorem convert_parts_in_order (part_list : list A2APart)
    (tc : Dict.t PyVal) :
  (forall vs,
     convert_parts read_type read_text part_list tc = Ok vs
     <-> Forall2 (fun p v => convert_part read_type read_text p tc = Ok v)
           part_list vs)
  /\ (forall e,
        convert_parts read_type read_text part_list tc = Raise e
        <-> exists pre p post,
              part_list = (pre ++ p :: post)%list
              /\ Forall (fun q => exists v,
                            convert_part read_type read_text q tc = Ok v) pre
              /\ convert_part read_type read_text p tc = Raise e)
  /\ (forall p rest e,
        part_list = p :: rest -> read_type p = Raise e ->
        convert_parts read_type read_text part_list tc = Raise e).
Proof.
  destruct (convert_parts_run part_list tc) as [Hok Hraise].
  split; [exact Hok|]. split; [exact Hraise|].
  intros p rest e -> H. rewrite convert_parts_cons.
  unfold convert_part. now rewrite H.
Qed.

End ConversionProperties.

Section StartupProperties.

Context {ext : Externals}.

Variable asyncio_run_refusal : World -> option PyExc.
Variable isinstance_RuntimeError : PyExc -> bool.
Variable object_str : TravelHostAgent -> string.

(** ** _get_initialized_routing_agent_sync *)

(** X21.  When [asyncio.run] runs the coroutine, the start-up never
    raises, whatever the remote agent at the one configured address does
    (a refused connection included): it returns the agent that
    [create_agent] configures, and the host agent then holds at most one
    card. *)
Theorem startup_survives_the_remote_agent (s : Store) :
  asyncio_run_refusal (world s) = None ->
  let r := _get_initialized_routing_agent_sync asyncio_run_refusal
             isinstance_RuntimeError object_str s in
  (exists agent,
     fst r = Ok (Some agent)
     /\ agent_name agent = "root_agent"
     /\ agent_instruction agent = bound_root_instruction
     /\ agent_tools agent = [bound_send_message])
  /\ self (snd r) = self (snd (create ["http://0.0.0.0:10001"] None s))
  /\ length (Dict.keys (cards (self (snd r)))) <= 1.
Proof.
  intros Hrun r. subst r.
  unfold _get_initialized_routing_agent_sync. rewrite Hrun.
  unfold _async_main, remote_agent_urls, bind, print, emit, create_agent, ret.
  destruct (create_run ["http://0.0.0.0:10001"] None s) as [line E].
  rewrite E. simpl.
  split; [|split].
  - eexists. repeat split.
  - reflexivity.
  - destruct (fold_register_grows
                (resolutions ["http://0.0.0.0:10001"] (world s))
                (__init__ None)) as [extra [Ek Hl]].
    simpl in Ek, Hl. simpl. rewrite Ek.
    destruct (fst (get_agent_card "http://0.0.0.0:10001" (world s)));
      simpl in Hl; lia.
Qed.

(** X22.  When [asyncio.run] refuses to run (an event loop is running
    already) with a [RuntimeError] whose message holds the text the code
    looks for, the start-up prints a warning and returns [None], no agent:
    no card was resolved and the host agent is untouched.  Any other
    exception of [asyncio.run] is raised again, with the store as it
    was. *)
Theorem startup_in_a_running_loop (s : Store) (e : PyExc) :
  asyncio_run_refusal (world s) = Some e ->
  let r := _get_initialized_routing_agent_sync asyncio_run_refusal
             isinstance_RuntimeError object_str s in
  (isinstance_RuntimeError e = true ->
   is_substring "asyncio.run() cannot be called from a running event loop"
     (exc_str e) = true ->
   fst r = Ok None
   /\ self (snd r) = self s /\ world (snd r) = world s
   /\ console (snd r)
      = (console s
         ++ [Stdout "Warning: Event loop already running. Initializing agent without remote connections."])%list)
  /\ (isinstance_RuntimeError e = false
      \/ is_substring
           "asyncio.run() cannot be called from a running event loop"
           (exc_str e) = false ->
      r = (Raise e, s)).
Proof.
  intros Href r. subst r.
  unfold _get_initialized_routing_agent_sync. rewrite Href.
  unfold raise, running_loop_text. split.
  - intros Hc Hm. rewrite Hc, Hm. repeat split.
  - intros [H|H].
    + now rewrite H.
    + rewrite H. now destruct (isinstance_RuntimeError e).
Qed.

End StartupProperties.

(** * The theorems at work in the scripted environment *)

#[local] Existing Instance Demo.externals.

(** Two addresses answer, one refuses the connection: the last address
    that resolves to "planning_agent" is the one stored. *)
Lemma create_stores_last_resolution_witness :
  Dict.get "planning_agent"
    (remote_agent_connections
       (self (snd (create ["http://0.0.0.0:10001"; "http://0.0.0.0:10003";
                           "http://0.0.0.0:10004"] None Demo.start))))
  = Some (RemoteAgentConnections.mk Demo.planning "http://0.0.0.0:10004")
  /\ Dict.get "planning_agent"
       (cards
          (self (snd (create ["http://0.0.0.0:10001"; "http://0.0.0.0:10003";
                              "http://0.0.0.0:10004"] None Demo.start))))
     = Some Demo.planning.
Proof.
  pose proof (create_stores_last_resolution
                ["http://0.0.0.0:10001"; "http://0.0.0.0:10003";
                 "http://0.0.0.0:10004"] None Demo.start) as H.
  cbv zeta in H. destruct H as [_ [H _]].
  apply (H [("http://0.0.0.0:10001", Ok Demo.inspiration);
            ("http://0.0.0.0:10003", Raise Demo.refused)]
           "http://0.0.0.0:10004" Demo.planning []).
  - reflexivity.
  - intros address' card' [].
Defined.

(** C1 as stated fails: two addresses resolve, each with a card, to the
    same agent name.  The resolution of the first succeeded, yet after
    initialization the name is mapped to the connection and the card of
    the second. *)
Lemma create_overwrites_same_name :
  resolutions ["http://0.0.0.0:10001"; "http://0.0.0.0:10002"]
              (world Demo.start)
  = [("http://0.0.0.0:10001", Ok Demo.inspiration);
     ("http://0.0.0.0:10002", Ok Demo.inspiration_mirror)]
  /\ Dict.get (AgentCard.name Demo.inspiration)
       (remote_agent_connections
          (self (snd (create ["http://0.0.0.0:10001"; "http://0.0.0.0:10002"]
                             None Demo.start))))
     = Some (RemoteAgentConnections.mk Demo.inspiration_mirror
               "http://0.0.0.0:10002")
  /\ Dict.get (AgentCard.name Demo.inspiration)
       (remote_agent_connections
          (self (snd (create ["http://0.0.0.0:10001"; "http://0.0.0.0:10002"]
                             None Demo.start))))
     <> Some (RemoteAgentConnections.mk Demo.inspiration
                "http://0.0.0.0:10001")
  /\ Dict.get (AgentCard.name Demo.inspiration)
       (cards
          (self (snd (create ["http://0.0.0.0:10001"; "http://0.0.0.0:10002"]
                             None Demo.start))))
     <> Some Demo.inspiration.
Proof.
  repeat split; try reflexivity; vm_compute; intros H; discriminate H.
Qed.

(** The remote agent at port 10004 refuses the connection when the
    message is sent: [send_message] raises that very exception. *)
Lemma send_message_propagates_client_errors_witness :
  fst (send_message "planning_agent" "Find flights to Lisbon" Demo.booted)
  = Raise Demo.refused
  /\ Dict.get "active_agent"
       (state (snd (send_message "planning_agent" "Find flights to Lisbon"
                      Demo.booted)))
     = Some (PyStr "planning_agent").
Proof.
  eapply (send_message_propagates_client_errors
            "planning_agent" "Find flights to Lisbon"
            (RemoteAgentConnections.mk Demo.planning "http://0.0.0.0:10004")).
  - reflexivity.
  - reflexivity.
  - reflexivity.
Defined.

(** C2 as stated fails: "planning_agent" is a key of
    [self.remote_agent_connections], its client raises a connection error
    for every request, and [send_message] lets that exception out. *)
Lemma send_message_does_not_catch :
  Dict.contains "planning_agent"
    (remote_agent_connections (self Demo.booted)) = true
  /\ (forall req w,
        fst (client_send_message
               (RemoteAgentConnections.mk Demo.planning "http://0.0.0.0:10004")
               req w)
        = Raise Demo.refused)
  /\ exc_class Demo.refused = ConnectError
  /\ fst (send_message "planning_agent" "Find flights to Lisbon" Demo.booted)
     = Raise Demo.refused.
Proof. repeat split. Qed.

(** The agent at port 10001 answers with a task: [send_message] returns
    it. *)
Lemma send_message_reads_response_witness :
  fst (send_message "inspiration_agent" "Somewhere warm" Demo.booted)
  = Ok (Some "inspiration_agent").
Proof.
  edestruct (send_message_reads_response
               "inspiration_agent" "Somewhere warm"
               (RemoteAgentConnections.mk Demo.inspiration
                  "http://0.0.0.0:10001")) with (s := Demo.booted)
    as [H _].
  - reflexivity.
  - reflexivity.
  - reflexivity.
  - apply H. reflexivity.
Defined.

(** A tool call, a tool response, the final answer in two text parts, and
    an event that is never read. *)
Lemma relay_reshapes_events_witness :
  yielded (snd (get_response_from_agent "plan" [] Demo.booted))
  = [assistant_message (tool_call_content Demo.lookup);
     assistant_message (tool_response_content Demo.answer);
     assistant_message "Bon voyage"]
  /\ In (assistant_message (tool_response_content Demo.answer))
        (yielded (snd (get_response_from_agent "plan" [] Demo.booted))).
Proof.
  pose proof (relay_reshapes_events "plan" [] Demo.booted) as H.
  cbv zeta in H. destruct (H eq_refl) as [_ [Hy [_ [Hr _]]]].
  split.
  - exact Hy.
  - apply (Hr Demo.response_event [Demo.response_part] Demo.response_part
              Demo.answer).
    + right. left. reflexivity.
    + reflexivity.
    + left. reflexivity.
    + reflexivity.
Defined.

(** The stream raises after a tool call: one error notice follows the
    message of the tool call, and the exception is printed. *)
Lemma relay_reports_exceptions_witness :
  yielded (snd (get_response_from_agent "fail" [] Demo.booted))
  = [assistant_message (tool_call_content Demo.lookup);
     assistant_message error_notice]
  /\ console (snd (get_response_from_agent "fail" [] Demo.booted))
     = (console Demo.booted
        ++ [Stdout ("Error in get_response_from_agent (Type: "
                    ++ "<class 'httpx.ConnectError'>" ++ "): "
                    ++ "All connection attempts failed");
            Traceback Demo.refused])%list.
Proof.
  destruct (relay_reports_exceptions "fail" [] Demo.booted) as [_ H].
  apply (H Demo.refused).
  - reflexivity.
  - repeat constructor.
Defined.

(** The second of three addresses refuses the connection: the loop body
    returns, the agent is the one it was, the third address is processed. *)
Lemma failed_resolution_is_skipped_witness :
  fst (resolve_address "http://0.0.0.0:10003"
         (snd (for_each ["http://0.0.0.0:10001"] resolve_address Demo.start)))
  = Ok tt
  /\ Dict.keys
       (cards
          (self (snd (for_each
                        ["http://0.0.0.0:10001"; "http://0.0.0.0:10003";
                         "http://0.0.0.0:10004"] resolve_address Demo.start))))
     = ["inspiration_agent"; "planning_agent"].
Proof.
  destruct (failed_resolution_is_skipped
              ["http://0.0.0.0:10001"] ["http://0.0.0.0:10004"]
              "http://0.0.0.0:10003" Demo.refused Demo.start eq_refl)
    as [H1 [_ [_ [H2 _]]]].
  split.
  - rewrite H1. reflexivity.
  - change (["http://0.0.0.0:10001"; "http://0.0.0.0:10003";
             "http://0.0.0.0:10004"])
      with (["http://0.0.0.0:10001"]
            ++ "http://0.0.0.0:10003" :: ["http://0.0.0.0:10004"])%list.
    rewrite H2. reflexivity.
Defined.

(** Distinct names: the cards held are the cards resolved, in order. *)
Lemma agents_listing_and_prompt_witness :
  Dict.values
    (cards
       (self (snd (create ["http://0.0.0.0:10001"; "http://0.0.0.0:10003";
                           "http://0.0.0.0:10004"] None Demo.start))))
  = [Demo.inspiration; Demo.planning]
  /\ agents
       (self (snd (create ["http://0.0.0.0:10003"] None Demo.start)))
     = "No agents found".
Proof.
  split.
  - pose proof (agents_listing_and_prompt
                  ["http://0.0.0.0:10001"; "http://0.0.0.0:10003";
                   "http://0.0.0.0:10004"] None Demo.start) as H.
    cbv zeta in H. destruct H as [_ [_ [H _]]]. apply H.
    constructor.
    + intros [E|[]]. discriminate E.
    + constructor; [intros []|constructor].
  - pose proof (agents_listing_and_prompt
                  ["http://0.0.0.0:10003"] None Demo.start) as H.
    cbv zeta in H. destruct H as [H _]. apply H. reflexivity.
Defined.

(** C7 as stated fails: two cards are resolved, under the same name, and
    [self.agents] is the JSON object of the second one alone, not the two
    objects joined by a newline. *)
Lemma agents_lists_one_card_per_name :
  resolved_cards
    (resolutions ["http://0.0.0.0:10001"; "http://0.0.0.0:10002"]
                 (world Demo.start))
  = [Demo.inspiration; Demo.inspiration_mirror]
  /\ agents
       (self (snd (create ["http://0.0.0.0:10001"; "http://0.0.0.0:10002"]
                          None Demo.start)))
     = card_info Demo.inspiration_mirror
  /\ agents
       (self (snd (create ["http://0.0.0.0:10001"; "http://0.0.0.0:10002"]
                          None Demo.start)))
     <> join newline
          (map card_info [Demo.inspiration; Demo.inspiration_mirror]).
Proof.
  repeat split; try reflexivity. vm_compute. intros H. discriminate H.
Qed.

(** The invariant after a creation, a message to a known agent and a
    message to an unknown one. *)
Lemma cards_and_connections_share_keys_witness :
  Dict.keys
    (cards
       (self (run (Call_send_message "nobody" "hello")
                (run (Call_send_message "planning_agent" "hello")
                   Demo.booted))))
  = Dict.keys
      (remote_agent_connections
         (self (run (Call_send_message "nobody" "hello")
                  (run (Call_send_message "planning_agent" "hello")
                     Demo.booted)))).
Proof.
  apply cards_and_connections_share_keys.
  do 2 apply reach_run.
  change Demo.booted
    with (run (Call_create ["http://0.0.0.0:10001"; "http://0.0.0.0:10004"]
                 None)
            (fresh_store None [] (0 : World))).
  apply reach_run. apply reach_fresh.
Defined.



(** A task id and an empty context id: the first is in the message, the
    second is not. *)
Lemma create_send_message_payload_shape_witness :
  exists message,
    fst (create_send_message_payload "hi" (Some "t1") (Some "") Demo.booted)
    = Ok [("message", PyDict message)]
    /\ Dict.get "taskId" message = Some (PyStr "t1")
    /\ Dict.contains "contextId" message = false.
Proof.
  destruct (create_send_message_payload_shape
              "hi" (Some "t1") (Some "") Demo.booted)
    as [message [E [_ [_ [_ [_ [Ht [Hc _]]]]]]]].
  exists message. split; [|split].
  - rewrite E. reflexivity.
  - apply Ht. reflexivity.
  - destruct (Dict.contains "contextId" message); [|reflexivity].
    destruct Hc as [Hc _]. specialize (Hc eq_refl). discriminate Hc.
Defined.

(** * The further properties at work *)

(** A session that is not open gets an id and is marked active. *)
Lemma before_model_callback_activates_witness :
  Dict.get "session_active"
    (state (snd (before_model_callback Demo.booted))) = Some (PyBool true)
  /\ Dict.contains "session_id"
       (state (snd (before_model_callback Demo.booted))) = true.
Proof.
  pose proof (before_model_callback_activates Demo.booted) as H.
  cbv zeta in H. destruct H as [_ [_ H]]. apply H. reflexivity.
Defined.

(** An open session is left exactly as it is. *)
Lemma before_model_callback_keeps_witness :
  snd (before_model_callback Scenes.in_session) = Scenes.in_session.
Proof.
  pose proof (before_model_callback_keeps Scenes.in_session) as H.
  cbv zeta in H. destruct H as [_ [_ [_ [_ [_ H]]]]]. apply H. reflexivity.
Defined.

(** The session is opened, the message to "planning_agent" fails on the
    wire, and the agent is reported as the active one all the same. *)
Lemma active_agent_is_reported_witness :
  check_active_agent
    (snd (send_message "planning_agent" "Find flights"
            (snd (before_model_callback Demo.booted))))
  = (Ok [("active_agent", PyStr "planning_agent")],
     snd (send_message "planning_agent" "Find flights"
            (snd (before_model_callback Demo.booted)))).
Proof.
  pose proof (active_agent_is_reported "planning_agent" "Find flights"
                Demo.booted eq_refl (or_intror eq_refl)) as H.
  cbv zeta in H. destruct H as [H _]. exact H.
Defined.

(** No session: the agent is recorded and not reported. *)
Lemma active_agent_needs_session_witness :
  Dict.get "active_agent"
    (state (snd (send_message "inspiration_agent" "Somewhere warm"
                   Demo.booted)))
  = Some (PyStr "inspiration_agent")
  /\ check_active_agent
       (snd (send_message "inspiration_agent" "Somewhere warm" Demo.booted))
     = (Ok [("active_agent", PyStr "None")],
        snd (send_message "inspiration_agent" "Somewhere warm" Demo.booted)).
Proof.
  pose proof (active_agent_needs_session "inspiration_agent" "Somewhere warm"
                Demo.booted eq_refl (or_introl eq_refl)) as H.
  cbv zeta in H. destruct H as [H1 [H2 _]]. split; assumption.
Defined.

(** The metadata is the number 5. *)
Lemma send_message_rejects_bad_metadata_witness :
  (exists e,
     fst (send_message "inspiration_agent" "Somewhere warm"
            Scenes.bad_metadata) = Raise e
     /\ exc_class e = TypeError)
  /\ console (snd (send_message "inspiration_agent" "Somewhere warm"
                     Scenes.bad_metadata))
     = console Scenes.bad_metadata.
Proof.
  destruct (send_message_rejects_bad_metadata
              "inspiration_agent" "Somewhere warm" (PyInt 5)
              Scenes.bad_metadata eq_refl eq_refl eq_refl) as [H [_ Hc]].
  split; assumption.
Defined.

(** An empty state: the three identifiers are new UUIDs. *)
Lemma send_message_payload_shape_witness :
  exists message message_id s1,
    build_message_request "Somewhere warm" Demo.booted
    = (match model_validate (PyDict [("message", PyDict message)]) with
       | Ok params => new_SendMessageRequest message_id params
       | Raise e => Raise e
       end, s1)
    /\ truthy message_id = true
    /\ exists u, Dict.get "taskId" message = Some (PyStr (uuid_str u)).
Proof.
  destruct (send_message_payload_shape "Somewhere warm" Demo.booted)
    as [message [message_id [s1 [E [_ [_ [_ [_ [_ [_ [T [_ [H _]]]]]]]]]]]]].
  - intros v Hv. discriminate Hv.
  - exists message, message_id, s1. repeat split; auto.
Defined.

(** The state provides the three identifiers: nothing is drawn. *)
Lemma send_message_reuses_identifiers_witness :
  snd (build_message_request "Somewhere warm" Scenes.with_identifiers)
  = Scenes.with_identifiers.
Proof.
  rewrite (send_message_reuses_identifiers "Somewhere warm"
             Scenes.with_identifiers (PyStr "t-1") (PyStr "c-1") (PyStr "m-1")
             [("message_id", PyStr "m-1")]
             eq_refl eq_refl eq_refl eq_refl eq_refl eq_refl eq_refl).
  reflexivity.
Defined.

(** A message to an unknown agent prints nothing. *)
Lemma send_message_log_witness :
  console (snd (send_message "nobody" "hello" Demo.booted))
  = console Demo.booted.
Proof.
  destruct (send_message_log "nobody" "hello" Demo.booted) as [H _].
  apply (H (mkExc ValueError "Agent nobody not found")). reflexivity.
Defined.

(** The two connections of the booted agent were built from its cards. *)
Lemma connections_match_cards_witness :
  Dict.get "planning_agent" (cards (self Demo.booted))
  = Some (RemoteAgentConnections.card
            (RemoteAgentConnections.mk Demo.planning "http://0.0.0.0:10004")).
Proof.
  assert (Hr : reachable Demo.booted).
  { change Demo.booted
      with (run (Call_create ["http://0.0.0.0:10001"; "http://0.0.0.0:10004"]
                   None)
              (fresh_store None [] (0 : World))).
    apply reach_run. apply reach_fresh. }
  destruct (connections_match_cards Demo.booted Hr "planning_agent")
    as [_ H].
  apply H. reflexivity.
Defined.

(** After a creation and a message, the listing is that of the cards. *)
Lemma agents_follow_cards_witness :
  (agents (self (run (Call_send_message "planning_agent" "hello")
                   Demo.booted)) = ""
   /\ cards (self (run (Call_send_message "planning_agent" "hello")
                     Demo.booted)) = []
   /\ remote_agent_connections
        (self (run (Call_send_message "planning_agent" "hello")
                 Demo.booted)) = [])
  \/ agents (self (run (Call_send_message "planning_agent" "hello")
                     Demo.booted))
     = listing
         (Dict.values
            (cards (self (run (Call_send_message "planning_agent" "hello")
                            Demo.booted)))).
Proof.
  apply agents_follow_cards. apply reach_run.
  change Demo.booted
    with (run (Call_create ["http://0.0.0.0:10001"; "http://0.0.0.0:10004"]
                 None)
            (fresh_store None [] (0 : World))).
  apply reach_run. apply reach_fresh.
Defined.

(** A tool call, then a final response that escalates. *)
Lemma relay_reports_escalation_witness :
  yielded (snd (get_response_from_agent "escalate" [] Scenes.start))
  = (yielded Scenes.start ++ flat_map event_messages [Demo.call_event]
     ++ [PyDict [("role", PyStr "assistant");
                 ("content", PyStr "Agent escalated: quota exceeded")]])%list.
Proof.
  apply (relay_reports_escalation "escalate" [] Scenes.start
           [Demo.call_event] [Demo.unread_event] Scenes.escalation_event
           {| escalate := Some true |}); try reflexivity.
  repeat constructor.
Defined.

(** A final response with a function call and no text: the tool call is
    relayed, nothing closes the relay, and the exception that ends the
    stream is never met. *)
Lemma relay_ends_silently_witness :
  yielded (snd (get_response_from_agent "quiet" [] Scenes.start))
  = event_messages Scenes.quiet_event
  /\ console (snd (get_response_from_agent "quiet" [] Scenes.start)) = [].
Proof.
  rewrite (relay_ends_silently "quiet" [] Scenes.start [] []
             Scenes.quiet_event eq_refl (Forall_nil _) eq_refl).
  - split; reflexivity.
  - left. exists [Demo.call_part]. split; [reflexivity|].
    intros p [<-|[]]. left. reflexivity.
Defined.

(** The same prefix, another tail, another ending. *)
Lemma relay_ignores_what_follows_witness :
  relay_events ([Demo.call_event] ++ Demo.final_event :: [Demo.unread_event])
    None Demo.booted
  = relay_events ([Demo.call_event] ++ Demo.final_event :: [])
      (Some Demo.refused) Demo.booted.
Proof.
  assert (H : none_final [Demo.call_event]) by (repeat constructor).
  destruct (relay_ignores_what_follows [Demo.call_event] [Demo.unread_event]
              [] Demo.final_event None (Some Demo.refused) Demo.booted
              H eq_refl) as [E _].
  exact E.
Defined.

(** Parts without an attribute [type]: the conversion of two parts
    raises the [AttributeError] of the first. *)
Lemma convert_parts_in_order_witness :
  convert_parts Scenes.no_type Scenes.no_text ["hello"; "world"] []
  = Raise Scenes.attribute_error.
Proof.
  destruct (convert_parts_in_order string Scenes.no_type Scenes.no_text
              ["hello"; "world"] []) as [_ [_ H]].
  apply (H "hello" ["world"]); reflexivity.
Defined.

(** No running loop: the start-up returns the root agent. *)
Lemma startup_survives_the_remote_agent_witness :
  exists agent,
    fst (_get_initialized_routing_agent_sync (ext := Demo.externals) Scenes.no_loop
           Scenes.is_runtime_error Scenes.object_text Demo.start)
    = Ok (Some agent)
    /\ agent_name agent = "root_agent".
Proof.
  destruct (startup_survives_the_remote_agent (ext := Demo.externals) Scenes.no_loop
              Scenes.is_runtime_error Scenes.object_text Demo.start eq_refl)
    as [[agent [E [Hn _]]] _].
  exists agent. split; assumption.
Defined.

(** A running loop: the start-up returns [None]. *)
Lemma startup_in_a_running_loop_witness :
  fst (_get_initialized_routing_agent_sync (ext := Demo.externals) Scenes.loop_running
         Scenes.is_runtime_error Scenes.object_text Demo.start)
  = Ok None.
Proof.
  destruct (startup_in_a_running_loop (ext := Demo.externals) Scenes.loop_running
              Scenes.is_runtime_error Scenes.object_text Demo.start
              (mkExc (OtherException "RuntimeError")
                 "asyncio.run() cannot be called from a running event loop")
              eq_refl) as [H _].
  destruct (H eq_refl eq_refl) as [E _]. exact E.
Defined.
